(** * DVCWorker: the artifact publish / retrieve workflow

    A shallow embedding of [PostprocessingServer/DVCWorker.py].  The
    class scripts a fixed sequence of calls to [git], [dvc] and an
    S3-compatible object store.  Those collaborators are not part of the
    program: they are an interface ([External]) whose operations may
    change the world and may raise.  Every method of the class becomes a
    computation in a small monad that threads the world, collects the
    calls made to the collaborators (and to the logger) and propagates
    Python exceptions. *)

From Stdlib Require Import String Ascii List Bool Arith ZArith Lia DecimalString.
Import ListNotations.
Open Scope string_scope.
Open Scope list_scope.

Notation "s +++ t" := (String.append s t) (at level 60, right associativity).

(** ** Python strings *)

Module PyStr.

(** [str.isspace] on the code points below 256. *)
Definition isspace (c : ascii) : bool :=
  let n := nat_of_ascii c in
  ((9 <=? n)%nat && (n <=? 13)%nat) || ((28 <=? n)%nat && (n <=? 32)%nat)
  || (n =? 133)%nat || (n =? 160)%nat.

Fixpoint lstrip (s : string) : string :=
  match s with
  | EmptyString => EmptyString
  | String c s' => if isspace c then lstrip s' else s
  end.

Fixpoint rstrip (s : string) : string :=
  match s with
  | EmptyString => EmptyString
  | String c s' =>
      match rstrip s' with
      | EmptyString => if isspace c then EmptyString else String c EmptyString
      | t => String c t
      end
  end.

(** [s.strip()] *)
Definition strip (s : string) : string := rstrip (lstrip s).

(** Truth value of a [str]: the empty string is false. *)
Definition truthy (s : string) : bool :=
  match s with EmptyString => false | _ => true end.

(** [s.split(sep)] for a one-character separator. *)
Fixpoint split (sep : ascii) (s : string) : list string :=
  match s with
  | EmptyString => [EmptyString]
  | String c s' =>
      if Ascii.eqb c sep then EmptyString :: split sep s'
      else match split sep s' with
           | [] => [String c EmptyString]
           | x :: xs => String c x :: xs
           end
  end.

Fixpoint join (sep : string) (l : list string) : string :=
  match l with
  | [] => EmptyString
  | [x] => x
  | x :: xs => x +++ sep +++ join sep xs
  end.

End PyStr.

(** ** pathlib paths (POSIX flavour) *)

Record Path : Type := mkPath { anchored : bool; parts : list string }.

Module PyPath.

Definition is_segment (s : string) : bool :=
  negb (String.eqb s "" || String.eqb s ".").

(** [Path(s)]: empty and [.] segments are dropped, a leading slash
    anchors the path at the root. *)
Definition of_str (s : string) : Path :=
  mkPath (match s with String "/" _ => true | _ => false end)
         (filter is_segment (PyStr.split "/" s)).

(** [str(p)] *)
Definition str (p : Path) : string :=
  if anchored p then "/" +++ PyStr.join "/" (parts p)
  else match parts p with
       | [] => "."
       | _ => PyStr.join "/" (parts p)
       end.

(** [p / s]: an anchored right operand replaces the left one. *)
Definition div (p : Path) (s : string) : Path :=
  let q := of_str s in
  if anchored q then q else mkPath (anchored p) (parts p ++ parts q).

(** [p.parent] *)
Definition parent (p : Path) : Path :=
  mkPath (anchored p) (removelast (parts p)).

(** [p.name] *)
Definition name (p : Path) : string := last (parts p) "".

Definition eqb (p q : Path) : bool :=
  Bool.eqb (anchored p) (anchored q)
  && (if list_eq_dec string_dec (parts p) (parts q) then true else false).

End PyPath.

Notation "p // s" := (PyPath.div p s) (at level 40, left associativity).

(** ** Exceptions, results and the calls made to the outside *)

(** The exception classes the code raises or names in an [except]
    clause; everything else that derives from [Exception] is
    [OtherException]. *)
Inductive exn : Type :=
| FileNotFoundError (msg : string)
| CalledProcessError (returncode : Z) (cmd : list string)
                     (output err : option string)
| NoSuchBucket (msg : string)
| OtherException (msg : string).

Definition is_CalledProcessError (e : exn) : bool :=
  match e with CalledProcessError _ _ _ _ => true | _ => false end.

Definition is_FileNotFoundError (e : exn) : bool :=
  match e with FileNotFoundError _ => true | _ => false end.

Definition is_NoSuchBucket (e : exn) : bool :=
  match e with NoSuchBucket _ => true | _ => false end.

(** The status dictionaries the methods return: ["status"] is always
    present, ["message"], ["stdout"] and ["stderr"] depend on the
    method. *)
Record Result : Type := mkResult {
  status : string;
  message : option string;
  stdout : option string;
  stderr : option string
}.

Definition msg_result (st m : string) : Result :=
  mkResult st (Some m) None None.

Definition out_result (st : string) (o e : option string) : Result :=
  mkResult st None o e.

(** [r["status"] == "error"] *)
Definition is_error (r : Result) : bool := String.eqb (status r) "error".

Inductive Level : Type := DEBUG | INFO | ERROR.

Inductive Event : Type :=
| ELog (lvl : Level) (msg : string)
| ERun (cmd : list string) (cwd : Path)
| EMkdir (p : Path)
| ECopy (src dst : string)
| EHeadBucket (bucket : string)
| ECreateBucket (bucket : string)
| EUpload (file bucket key : string)
| EDownload (bucket key file : string).

(** What a finished child process reports. *)
Record Exit : Type := mkExit {
  exit_code : Z;
  exit_stdout : string;
  exit_stderr : string
}.

(** [subprocess.CompletedProcess]: the streams are [None] unless
    [capture_output=True]. *)
Record CompletedProcess : Type := mkCompleted {
  cp_stdout : option string;
  cp_stderr : option string
}.

(** ** The collaborators

    The filesystem, the child processes and the object-store client.
    Nothing is assumed about them: each call may change the world and,
    except for the two filesystem queries, may raise.  [spawn] starts a
    child process and waits for it; it raises only when the process
    could not be started.  The last two fields are the interpreter's
    renderings of a list of strings and of a [CalledProcessError].

    [path_exists] and [path_resolve] are queries that answer: a run in
    which [Path.exists] or [Path.resolve] itself raises (a symbolic
    link loop, a NUL in the path, an unsearchable directory) is not a
    run of this model.  The properties below are about the runs in
    which these queries answer. *)
Class External (W : Type) : Type := {
  path_exists : Path -> W -> bool;
  path_resolve : Path -> W -> Path;
  path_mkdir : Path -> W -> (exn + unit) * W;
  shutil_copy : string -> string -> W -> (exn + unit) * W;
  spawn : list string -> Path -> W -> (exn + Exit) * W;
  s3_head_bucket : string -> W -> (exn + unit) * W;
  s3_create_bucket : string -> W -> (exn + unit) * W;
  s3_upload_file : string -> string -> string -> W -> (exn + unit) * W;
  s3_download_file : string -> string -> string -> W -> (exn + unit) * W;
  repr_argv : list string -> string;
  str_CalledProcessError : Z -> list string -> string
}.

(** ** The monad: world, calls made, exceptions *)

Definition M (W A : Type) : Type := W -> (exn + A) * W * list Event.

Definition ret {W A} (a : A) : M W A := fun w => (inr a, w, []).

Definition raise {W A} (e : exn) : M W A := fun w => (inl e, w, []).

Definition bind {W A B} (m : M W A) (f : A -> M W B) : M W B :=
  fun w =>
    match m w with
    | (inl e, w1, ev1) => (inl e, w1, ev1)
    | (inr a, w1, ev1) =>
        match f a w1 with
        | (r, w2, ev2) => (r, w2, ev1 ++ ev2)
        end
    end.

(** [try: m  except ...: h]: [h e] is [None] when no clause matches
    [e], which then propagates. *)
Definition try_except {W A} (m : M W A) (h : exn -> option (M W A)) : M W A :=
  fun w =>
    match m w with
    | (inr a, w1, ev1) => (inr a, w1, ev1)
    | (inl e, w1, ev1) =>
        match h e with
        | None => (inl e, w1, ev1)
        | Some k =>
            match k w1 with
            | (r, w2, ev2) => (r, w2, ev1 ++ ev2)
            end
        end
    end.

(** A call to a collaborator, recorded as [ev]. *)
Definition call {W A} (ev : Event) (op : W -> (exn + A) * W) : M W A :=
  fun w => match op w with (r, w') => (r, w', [ev]) end.

(** A query of the world. *)
Definition ask {W A} (q : W -> A) : M W A := fun w => (inr (q w), w, []).

Notation "x <- m ;; k" := (bind m (fun x => k))
  (at level 61, m at next level, right associativity).
Notation "m ;; k" := (bind m (fun _ => k))
  (at level 61, right associativity).

Definition outcome {W A} (x : (exn + A) * W * list Event) : exn + A :=
  fst (fst x).
Definition world_after {W A} (x : (exn + A) * W * list Event) : W :=
  snd (fst x).
Definition events {W A} (x : (exn + A) * W * list Event) : list Event :=
  snd x.

(** Whether the run ended by returning a value (as opposed to raising). *)
Definition returned {W A} (x : (exn + A) * W * list Event) : bool :=
  match outcome x with inr _ => true | inl _ => false end.

Definition fmt_opt (o : option string) : string :=
  match o with Some s => s | None => "None" end.

(** [str(n)] for an [int]. *)
Definition str_int (n : Z) : string :=
  NilZero.string_of_int (Z.to_int n).

Section Worker.

Context {W : Type} `{Ext : External W}.

Local Abbreviation Py := (M W).

(** [str(e)] *)
Definition str_exn (e : exn) : string :=
  match e with
  | FileNotFoundError m => m
  | CalledProcessError rc cmd _ _ => str_CalledProcessError rc cmd
  | NoSuchBucket m => m
  | OtherException m => m
  end.

Definition log (lvl : Level) (msg : string) : Py unit :=
  fun w => (inr tt, w, [ELog lvl msg]).

Definition exists_ (p : Path) : Py bool := ask (path_exists p).
Definition resolve (p : Path) : Py Path := ask (path_resolve p).
Definition mkdir (p : Path) : Py unit := call (EMkdir p) (path_mkdir p).
Definition copy (src dst : string) : Py unit :=
  call (ECopy src dst) (shutil_copy src dst).

(** [subprocess.run(cmd, check=True, cwd=cwd)], with
    [text=True, capture_output=True] when [capture] is set. *)
Definition subprocess_run (cmd : list string) (cwd : Path) (capture : bool)
  : Py CompletedProcess :=
  fun w =>
    match spawn cmd cwd w with
    | (inl e, w') => (inl e, w', [ERun cmd cwd])
    | (inr x, w') =>
        let o := if capture then Some (exit_stdout x) else None in
        let e := if capture then Some (exit_stderr x) else None in
        if (exit_code x =? 0)%Z
        then (inr (mkCompleted o e), w', [ERun cmd cwd])
        else (inl (CalledProcessError (exit_code x) cmd o e), w', [ERun cmd cwd])
    end.

Definition head_bucket (b : string) : Py unit :=
  call (EHeadBucket b) (s3_head_bucket b).
Definition create_bucket (b : string) : Py unit :=
  call (ECreateBucket b) (s3_create_bucket b).
Definition upload_file (file b key : string) : Py unit :=
  call (EUpload file b key) (s3_upload_file file b key).
Definition download_file (b key file : string) : Py unit :=
  call (EDownload b key file) (s3_download_file b key file).

(** ** The class *)

Record DVCWorker : Type := mkWorker {
  dag_id : string;
  execution_id : string;
  git_repo_path : Path;
  minio_bucket : string;
  minio_url : string;
  access_key : string;
  secret_key : string;
  remote_name : string
}.

Variable self : DVCWorker.

Definition create_directory_if_not_exists (path : Path) : Py unit :=
  _ <- resolve path ;;
  b <- exists_ path ;;
  if negb b then
    log INFO ("Directory " +++ PyPath.str path +++ " does not exist. Creating it.") ;;
    mkdir path ;;
    log INFO ("Directory " +++ PyPath.str path +++ " created.")
  else
    log INFO ("Directory " +++ PyPath.str path +++ " already exists.").

Definition ensure_git_repository : Py unit :=
  let git_dir := git_repo_path self // ".git" in
  b <- exists_ git_dir ;;
  if negb b then
    log INFO ("Directory " +++ PyPath.str (git_repo_path self)
              +++ " is not a Git repository. Initializing a new Git repository.") ;;
    subprocess_run ["git"; "init"] (git_repo_path self) false ;;
    log INFO ("Initialized empty Git repository in "
              +++ PyPath.str (git_repo_path self))
  else
    log INFO ("Directory " +++ PyPath.str (git_repo_path self)
              +++ " is already a Git repository.").

Definition bucket_exists (bucket_name : string) : Py bool :=
  try_except
    (head_bucket bucket_name ;; ret true)
    (fun e =>
       if is_NoSuchBucket e then Some (ret false)
       else Some (log ERROR ("Error checking bucket existence: " +++ str_exn e) ;;
                  ret false)).

Definition configure_remote (project_path : Path)
    (appointed_bucket service_type : string) : Py Result :=
  let on_error e := Some (ret (msg_result "error" (str_exn e))) in
  try_except
    (b <- bucket_exists appointed_bucket ;;
     (if negb b then
        create_bucket appointed_bucket ;;
        log INFO ("Bucket " +++ appointed_bucket +++ " created")
      else
        log INFO ("Bucket " +++ appointed_bucket +++ " already exists")) ;;
     let remote_path :=
       "s3://" +++ appointed_bucket +++ "/" +++ dag_id self +++ "_"
       +++ execution_id self +++ "/" +++ service_type +++ "/dataset" in
     subprocess_run ["dvc"; "remote"; "add"; "-d"; remote_name self;
                     remote_path; "--force"] project_path false ;;
     subprocess_run ["dvc"; "remote"; "modify"; remote_name self;
                     "endpointurl"; minio_url self] project_path false ;;
     subprocess_run ["dvc"; "remote"; "modify"; remote_name self;
                     "access_key_id"; access_key self] project_path false ;;
     subprocess_run ["dvc"; "remote"; "modify"; remote_name self;
                     "secret_access_key"; secret_key self] project_path false ;;
     subprocess_run ["dvc"; "remote"; "modify"; remote_name self;
                     "use_ssl"; "false"] project_path false ;;
     log INFO ("Configured MinIO " +++ remote_path
               +++ " as remote storage for DVC at " +++ PyPath.str project_path) ;;
     ret (msg_result "success"
            "DVC initialized and MinIO remote configured successfully."))
    (fun e => if is_CalledProcessError e then on_error e else on_error e).

Definition initialize_dvc (dvc_repo_path0 : Path) (stage_type : string)
  : Py Result :=
  dvc_repo_path <- resolve dvc_repo_path0 ;;
  let dvc_path := dvc_repo_path // ".dvc" in
  let service_type := stage_type in
  b <- exists_ dvc_path ;;
  (if negb b then
     log DEBUG ("Initializing DVC repository at " +++ PyPath.str dvc_repo_path) ;;
     subprocess_run ["dvc"; "init"; "--no-scm"] dvc_repo_path false ;;
     ret tt
   else ret tt) ;;
  ensure_git_repository ;;
  let appointed_data_bucket := minio_bucket self in
  config_result <- configure_remote dvc_repo_path appointed_data_bucket service_type ;;
  ret config_result.

Definition ensure_dvc_repository (folder_path : Path) (stage_type : string)
  : Py unit :=
  let dvc_dir := folder_path // ".dvc" in
  b <- exists_ dvc_dir ;;
  if negb b then
    log INFO ("Directory " +++ PyPath.str folder_path
              +++ " is not a DVC repository. Initializing a new DVC repository with --no-scm.") ;;
    initialize_dvc folder_path stage_type ;;
    log INFO ("Initialized empty DVC repository in " +++ PyPath.str folder_path
              +++ " with --no-scm")
  else ret tt.

Definition nl : string := String "010"%char EmptyString.

Definition git_add_commit_and_push (project_path : Path) (message_ : string)
  : Py Result :=
  try_except
    (subprocess_run ["git"; "add"; "."] (git_repo_path self) false ;;
     result <- subprocess_run ["git"; "status"; "--porcelain"]
                 (git_repo_path self) true ;;
     if negb (PyStr.truthy (PyStr.strip (fmt_opt (cp_stdout result)))) then
       log INFO "No changes to commit in Git repository." ;;
       ret (msg_result "success" "No changes to commit in Git repository.")
     else
       subprocess_run ["git"; "commit"; "-m"; message_] (git_repo_path self) false ;;
       log INFO "Committed and (optionally) pushed DVC changes to Git repository." ;;
       ret (msg_result "success"
              "Changes committed (and optionally pushed) to Git repository."))
    (fun e =>
       if is_CalledProcessError e then
         Some (log ERROR ("Error committing (and pushing) to Git: " +++ str_exn e) ;;
               ret (msg_result "error" (str_exn e)))
       else None).

Definition add (folder_path0 : Path) (folder_name stage_type : string)
  : Py Result :=
  folder_path <- resolve folder_path0 ;;
  b <- exists_ folder_path ;;
  if negb b then
    raise (FileNotFoundError
             ("The folder '" +++ PyPath.str folder_path +++ "' does not exist."))
  else
    try_except
      (subprocess_run ["dvc"; "add"; PyPath.str folder_path]
         (PyPath.parent folder_path) false ;;
       log INFO ("Added " +++ folder_name +++ " to DVC tracking.") ;;
       let dvc_file := PyPath.parent folder_path // (folder_name +++ ".dvc") in
       found <- exists_ dvc_file ;;
       if found then
         appointed_dvc_file_storage_folder <-
           resolve (git_repo_path self // stage_type
                    // (stage_type +++ "_" +++ folder_name)) ;;
         create_directory_if_not_exists appointed_dvc_file_storage_folder ;;
         copy (PyPath.str dvc_file) (PyPath.str appointed_dvc_file_storage_folder) ;;
         git_add_commit_and_push (git_repo_path self)
           ("Add " +++ folder_name +++ " dataset DVC file") ;;
         ret (msg_result "success"
                ("Folder " +++ folder_name
                 +++ " added to DVC tracking and DVC file committed to Git."))
       else
         log ERROR (".dvc file not found for " +++ folder_name +++ ". Expected at "
                    +++ PyPath.str dvc_file +++ ".") ;;
         ret (msg_result "error" (".dvc file not found for " +++ folder_name +++ ".")))
      (fun e =>
         if is_CalledProcessError e then
           Some (log ERROR ("Error adding folder to DVC: " +++ str_exn e) ;;
                 ret (msg_result "error" (str_exn e)))
         else None).

Definition push (folder_path0 : Path) : Py Result :=
  folder_path <- resolve folder_path0 ;;
  root_folder_path <- resolve (PyPath.parent folder_path) ;;
  try_except
    (result <- subprocess_run ["dvc"; "push"] root_folder_path true ;;
     log INFO "Pushed data to remote storage." ;;
     ret (out_result "success" (cp_stdout result) (cp_stderr result)))
    (fun e =>
       match e with
       | CalledProcessError rc cmd o er =>
           Some (log ERROR ("Error pushing data to remote storage: Command '"
                            +++ repr_argv cmd
                            +++ "' returned non-zero exit status " +++ str_int rc) ;;
                 log ERROR ("Detailed error output:" +++ nl +++ "STDOUT:" +++ nl
                            +++ fmt_opt o +++ nl +++ "STDERR:" +++ nl +++ fmt_opt er) ;;
                 ret (out_result "error" o er))
       | _ =>
           Some (log ERROR ("Unexpected error occurred: " +++ str_exn e) ;;
                 ret (msg_result "error" (str_exn e)))
       end).

(** The object key of [upload_dvc_file_to_minio] (its [target_path]). *)
Definition target_path (dvc_file_path : Path) (stage_type : string) : string :=
  dag_id self +++ "_" +++ execution_id self +++ "/" +++ stage_type
  +++ "/dvc_files/" +++ PyPath.name dvc_file_path.

Definition upload_dvc_file_to_minio (dvc_file_path : Path) (stage_type : string)
  : Py Result :=
  try_except
    (b <- bucket_exists (minio_bucket self) ;;
     (if negb b then
        log INFO ("Bucket '" +++ minio_bucket self +++ "' does not exist. Creating it.") ;;
        create_bucket (minio_bucket self) ;;
        log INFO ("Bucket '" +++ minio_bucket self +++ "' created.")
      else ret tt) ;;
     upload_file (PyPath.str dvc_file_path) (minio_bucket self)
       (target_path dvc_file_path stage_type) ;;
     log INFO ("Uploaded .dvc file to MinIO at " +++ minio_bucket self +++ "/"
               +++ target_path dvc_file_path stage_type) ;;
     ret (msg_result "success"
            ("Uploaded .dvc file to MinIO at " +++ minio_bucket self +++ "/"
             +++ target_path dvc_file_path stage_type)))
    (fun e =>
       Some (log ERROR ("Failed to upload .dvc file to MinIO: " +++ str_exn e) ;;
             ret (msg_result "error" (str_exn e)))).

Definition add_and_push_data (folder_path0 : Path) (folder_name stage_type : string)
  : Py Result :=
  folder_path <- resolve folder_path0 ;;
  b <- exists_ folder_path ;;
  if negb b then
    raise (FileNotFoundError
             ("The folder '" +++ PyPath.str folder_path +++ "' does not exist."))
  else
    add_result <- add folder_path folder_name stage_type ;;
    if is_error add_result then ret add_result else
    push_result <- push folder_path ;;
    if is_error push_result then ret push_result else
    let dvc_file := PyPath.parent folder_path // (folder_name +++ ".dvc") in
    upload_result <- upload_dvc_file_to_minio dvc_file stage_type ;;
    if is_error upload_result then ret upload_result else
    ret (msg_result "success"
           "Data added to DVC, pushed to remote storage, and .dvc file uploaded to MinIO.").

Definition download_dvc_file_from_minio (dvc_filename : string)
    (target : Path) (stage_type : string) : Py unit :=
  try_except
    (let minio_key := stage_type +++ "/" +++ dvc_filename in
     download_file (minio_bucket self) minio_key (PyPath.str target) ;;
     log INFO ("Downloaded " +++ dvc_filename +++ " from MinIO to "
               +++ PyPath.str target))
    (fun e =>
       Some (log ERROR ("Failed to download " +++ dvc_filename +++ " from MinIO: "
                        +++ str_exn e) ;;
             raise (FileNotFoundError
                      ("Failed to download " +++ dvc_filename +++ " from MinIO: "
                       +++ str_exn e)))).

(** The object key of [pull] (its [dvc_file_key]). *)
Definition dvc_file_key (stage_type dvc_filename : string) : string :=
  dag_id self +++ "_" +++ execution_id self +++ "/" +++ stage_type
  +++ "/dvc_files/" +++ dvc_filename.

Definition pull (stage_type dvc_filename : string) (folder_path0 : Path)
  : Py Result :=
  folder_path <- resolve folder_path0 ;;
  try_except
    (b <- exists_ folder_path ;;
     if negb b then
       raise (FileNotFoundError
                ("Destination folder " +++ PyPath.str folder_path
                 +++ " does not exist."))
     else
       ensure_dvc_repository folder_path stage_type ;;
       let local_dvc_file_path := folder_path // dvc_filename in
       early <-
         try_except
           (log INFO ("Downloading .dvc file from MinIO: "
                      +++ dvc_file_key stage_type dvc_filename +++ " to "
                      +++ PyPath.str local_dvc_file_path) ;;
            download_file (minio_bucket self)
              (dvc_file_key stage_type dvc_filename)
              (PyPath.str local_dvc_file_path) ;;
            log INFO ("Downloaded " +++ dvc_filename +++ " to "
                      +++ PyPath.str local_dvc_file_path) ;;
            ret None)
           (fun e =>
              Some (log ERROR ("Failed to download .dvc file from MinIO: "
                               +++ str_exn e) ;;
                    ret (Some (msg_result "error"
                                 ("Failed to download .dvc file from MinIO: "
                                  +++ str_exn e))))) ;;
       match early with
       | Some r => ret r
       | None =>
           try_except
             (result <- subprocess_run ["dvc"; "pull"; PyPath.str local_dvc_file_path]
                          folder_path true ;;
              log INFO ("Pulled data from remote storage for " +++ dvc_filename +++ ".") ;;
              ret (out_result "success" (cp_stdout result) (cp_stderr result)))
             (fun e =>
                match e with
                | CalledProcessError _ _ o er =>
                    Some (log ERROR ("Error pulling data from remote storage: "
                                     +++ str_exn e) ;;
                          ret (out_result "error" o er))
                | _ => None
                end)
       end)
    (fun e =>
       if is_FileNotFoundError e then
         Some (log ERROR ("File not found: " +++ str_exn e) ;;
               ret (msg_result "error" (str_exn e)))
       else
         Some (log ERROR ("Error during pull operation: " +++ str_exn e) ;;
               ret (msg_result "error" (str_exn e)))).

End Worker.

(** [DVCWorker.__init__] *)
Definition init {W : Type} `{Ext : External W}
    (dag execution minio_bucket_ minio_url_ access_key_ secret_key_ : string)
    (git_repo_path0 : Path) : M W DVCWorker :=
  git_repo <- resolve git_repo_path0 ;;
  let self := mkWorker dag execution git_repo minio_bucket_ minio_url_
                access_key_ secret_key_
                ("remote_" +++ dag +++ "_" +++ execution) in
  create_directory_if_not_exists (git_repo_path self) ;;
  ensure_git_repository self ;;
  ret self.

(** ** The publish pipeline as the specification words it

    [trackAndArchive], then [syncToRemote], then
    [backupManifestRemotely]; the first step that returns an error
    status ends the pipeline and its result is the pipeline's result. *)
Definition publish_pipeline {W : Type} `{Ext : External W} (self : DVCWorker)
    (folder_path0 : Path) (artifact_name stage_type : string) : M W Result :=
  folder_path <- resolve folder_path0 ;;
  tracked <- add self folder_path artifact_name stage_type ;;
  if is_error tracked then ret tracked else
  synced <- push folder_path ;;
  if is_error synced then ret synced else
  backed_up <- upload_dvc_file_to_minio self
                 (PyPath.parent folder_path // (artifact_name +++ ".dvc"))
                 stage_type ;;
  if is_error backed_up then ret backed_up else
  ret (msg_result "success"
         "Data added to DVC, pushed to remote storage, and .dvc file uploaded to MinIO.").

(** The calls a run made, by kind. *)
Fixpoint starts_with (prefix cmd : list string) : bool :=
  match prefix, cmd with
  | [], _ => true
  | x :: prefix', y :: cmd' => String.eqb x y && starts_with prefix' cmd'
  | _ :: _, [] => false
  end.

Definition is_run_of (prefix : list string) (ev : Event) : bool :=
  match ev with
  | ERun cmd _ => starts_with prefix cmd
  | _ => false
  end.

Definition uploads (evs : list Event) : list (string * string) :=
  flat_map (fun ev => match ev with
                      | EUpload _ b k => [(b, k)]
                      | _ => []
                      end) evs.

Definition downloads (evs : list Event) : list (string * string) :=
  flat_map (fun ev => match ev with
                      | EDownload b k _ => [(b, k)]
                      | _ => []
                      end) evs.

(** ** A simulated world

    A small executable instance of the collaborators, used to run the
    methods on concrete inputs: a set of existing paths, a set of
    buckets and object keys, and whether the archive has uncommitted
    changes.  [Faults] selects the misbehaviours a scenario needs. *)
Module Sim.

Record World : Type := mkWorld {
  paths : list Path;
  buckets : list string;
  objects : list (string * string);
  dirty : bool
}.

Record Faults : Type := mkFaults {
  manifest_written : bool;   (* [dvc add] leaves the manifest behind *)
  commit_code : Z;           (* exit code of [git commit] *)
  store_down : bool          (* every object-store call fails *)
}.

Definition no_faults : Faults := mkFaults true 0 false.

Definition has_path (p : Path) (w : World) : bool :=
  existsb (PyPath.eqb p) (paths w).

Definition touch (p : Path) (w : World) : World :=
  mkWorld (p :: paths w) (buckets w) (objects w) (dirty w).

Definition set_dirty (b : bool) (w : World) : World :=
  mkWorld (paths w) (buckets w) (objects w) b.

Definition has_bucket (b : string) (w : World) : bool :=
  existsb (String.eqb b) (buckets w).

Definition has_object (b k : string) (w : World) : bool :=
  existsb (fun o => String.eqb b (fst o) && String.eqb k (snd o)) (objects w).

Definition exited (code : Z) (out : string) : exn + Exit :=
  inr (mkExit code out "").

Definition run (f : Faults) (cmd : list string) (cwd : Path) (w : World)
  : (exn + Exit) * World :=
  match cmd with
  | ["git"; "init"] => (exited 0 "", touch (cwd // ".git") w)
  | ["dvc"; "init"; "--no-scm"] => (exited 0 "", touch (cwd // ".dvc") w)
  | ["dvc"; "add"; target] =>
      (exited 0 "",
       if manifest_written f
       then touch (cwd // (PyPath.name (PyPath.of_str target) +++ ".dvc")) w
       else w)
  | ["git"; "status"; "--porcelain"] =>
      (exited 0 (if dirty w then "A  data.dvc" +++ nl else ""), w)
  | ["git"; "commit"; "-m"; _] =>
      (exited (commit_code f) "",
       if (commit_code f =? 0)%Z then set_dirty false w else w)
  | _ => (exited 0 "", w)
  end.

(** [repr] of a list of strings that hold no quote, backslash or
    control character. *)
Definition repr_list (l : list string) : string :=
  "[" +++ PyStr.join ", " (map (fun x => "'" +++ x +++ "'") l) +++ "]".

Definition store (f : Faults) (ok : bool) (missing : exn) (w' w : World)
  : (exn + unit) * World :=
  if store_down f then (inl (OtherException "connection refused"), w)
  else if ok then (inr tt, w') else (inl missing, w).

#[export] Instance external (f : Faults) : External World := {
  path_exists := has_path;
  path_resolve := fun p _ => p;
  path_mkdir := fun p w => (inr tt, touch p w);
  shutil_copy := fun src dst w =>
    (inr tt,
     set_dirty true
       (touch (PyPath.of_str dst // PyPath.name (PyPath.of_str src)) w));
  spawn := run f;
  s3_head_bucket := fun b w =>
    store f (has_bucket b w) (NoSuchBucket "Not Found") w w;
  s3_create_bucket := fun b w =>
    store f true (OtherException "")
      (mkWorld (paths w) (b :: buckets w) (objects w) (dirty w)) w;
  s3_upload_file := fun file b k w =>
    store f (has_bucket b w) (OtherException "NoSuchBucket")
      (mkWorld (paths w) (buckets w) ((b, k) :: objects w) (dirty w)) w;
  s3_download_file := fun b k file w =>
    store f (has_object b k w) (OtherException "Not Found")
      (touch (PyPath.of_str file) w) w;
  repr_argv := repr_list;
  str_CalledProcessError := fun rc cmd =>
    "Command '" +++ repr_list cmd
    +++ "' returned non-zero exit status " +++ str_int rc +++ "."
}.

Definition worker : DVCWorker :=
  mkWorker "P1" "R1" (PyPath.of_str "/srv/archive") "datasets"
    "http://minio:9000" "key" "secret" "remote_P1_R1".

Definition folder : Path := PyPath.of_str "/out/stage1_result".

(** The artifact folder and the archive root exist, nothing else. *)
Definition w0 : World :=
  mkWorld [folder; PyPath.of_str "/srv/archive";
           PyPath.of_str "/srv/archive/.git"] [] [] false.

(** Nothing exists. *)
Definition empty : World := mkWorld [] [] [] false.

End Sim.

(** Worlds and faults of the scenarios run below. *)
Module Scenario.

Import Sim.

Definition repo : Path := PyPath.of_str "/srv/archive".

(** [git commit] exits 1. *)
Definition commit_fails : Faults := mkFaults true 1 false.

(** [dvc add] exits 0 without writing the manifest. *)
Definition no_manifest : Faults := mkFaults false 0 false.

(** The artifact folder is already a versioning root. *)
Definition w_versioned : World := touch (folder // ".dvc") w0.

(** The archive has uncommitted changes. *)
Definition w_dirty : World := set_dirty true w0.

End Scenario.

(** Further kinds of calls. *)
Definition is_run (ev : Event) : bool :=
  match ev with ERun _ _ => true | _ => false end.

Definition is_create_bucket (ev : Event) : bool :=
  match ev with ECreateBucket _ => true | _ => false end.

Definition is_store_call (ev : Event) : bool :=
  match ev with
  | EHeadBucket _ | ECreateBucket _ | EUpload _ _ _ | EDownload _ _ _ => true
  | _ => false
  end.

(** Neither a download nor a [dvc pull]. *)
Definition quiet (ev : Event) : bool :=
  match ev with
  | EDownload _ _ _ => false
  | ERun cmd _ => negb (starts_with ["dvc"; "pull"] cmd)
  | _ => true
  end.

(** The child processes the class may start: [git] and [dvc], and never
    [git push]. *)
Definition allowed_call (ev : Event) : bool :=
  match ev with
  | ERun (tool :: args) _ =>
      (String.eqb tool "git" || String.eqb tool "dvc")
      && negb (starts_with ["git"; "push"] (tool :: args))
  | ERun [] _ => false
  | _ => true
  end.

(** A simulated world with more ways to fail: [forced cmd] is the exit
    code a command is made to end with (0 leaves it to [Sim.run]);
    [copy_error] and [mkdir_error] make [shutil.copy] and [Path.mkdir]
    raise. *)
Module Faulty.

Record Plan : Type := mkPlan {
  forced : list string -> Z;
  copy_error : option exn;
  mkdir_error : option exn
}.

#[export] Instance external (f : Sim.Faults) (plan : Plan)
  : External Sim.World := {
  path_exists := Sim.has_path;
  path_resolve := fun p _ => p;
  path_mkdir := fun p w =>
    match mkdir_error plan with
    | Some e => (inl e, w)
    | None => (inr tt, Sim.touch p w)
    end;
  shutil_copy := fun src dst w =>
    match copy_error plan with
    | Some e => (inl e, w)
    | None => shutil_copy (External := Sim.external f) src dst w
    end;
  spawn := fun cmd cwd w =>
    if (forced plan cmd =? 0)%Z then Sim.run f cmd cwd w
    else (inr (mkExit (forced plan cmd) "" "fatal"), w);
  s3_head_bucket := s3_head_bucket (External := Sim.external f);
  s3_create_bucket := s3_create_bucket (External := Sim.external f);
  s3_upload_file := s3_upload_file (External := Sim.external f);
  s3_download_file := s3_download_file (External := Sim.external f);
  repr_argv := Sim.repr_list;
  str_CalledProcessError := fun rc cmd =>
    "Command '" +++ Sim.repr_list cmd
    +++ "' returned non-zero exit status " +++ str_int rc +++ "."
}.

(** The third configuration command of the worker, which sets the
    access key. *)
Definition set_access_key : list string :=
  ["dvc"; "remote"; "modify"; "remote_P1_R1"; "access_key_id"].

(** Exit code 1 for the commands that start with [prefix]. *)
Definition failing (prefix cmd : list string) : Z :=
  if starts_with prefix cmd then 1%Z else 0%Z.

(** The commands that start with [prefix] exit with code 1. *)
Definition command_fails (prefix : list string) : Plan :=
  mkPlan (failing prefix) None None.

Definition copy_fails : Plan :=
  mkPlan (fun _ => 0%Z) (Some (OtherException "Permission denied")) None.

Definition mkdir_fails : Plan :=
  mkPlan (fun _ => 0%Z) None (Some (OtherException "Permission denied")).

(** The manifest is in the bucket; the destination exists but is not a
    versioning root yet. *)
Definition w_remote_only : Sim.World :=
  Sim.mkWorld (Sim.paths Sim.w0) ["datasets"]
    [("datasets", "P1_R1/preprocess/dvc_files/stage1_result.dvc")] false.

(** The worker's bucket exists. *)
Definition w_bucket : Sim.World :=
  Sim.mkWorld (Sim.paths Sim.w0) ["datasets"] [] false.

(** The bucket holds the manifest and the destination is a versioning
    root. *)
Definition w_published : Sim.World :=
  Sim.mkWorld (Sim.folder // ".dvc" :: Sim.paths Sim.w0) ["datasets"]
    [("datasets", "P1_R1/preprocess/dvc_files/stage1_result.dvc")] false.

End Faulty.

(** The five commands of [configure_remote], in the order it runs
    them. *)
Definition remote_commands (self : DVCWorker)
    (appointed_bucket service_type : string) : list (list string) :=
  let remote_path :=
    "s3://" +++ appointed_bucket +++ "/" +++ dag_id self +++ "_"
    +++ execution_id self +++ "/" +++ service_type +++ "/dataset" in
  [["dvc"; "remote"; "add"; "-d"; remote_name self; remote_path; "--force"];
   ["dvc"; "remote"; "modify"; remote_name self; "endpointurl"; minio_url self];
   ["dvc"; "remote"; "modify"; remote_name self; "access_key_id"; access_key self];
   ["dvc"; "remote"; "modify"; remote_name self; "secret_access_key";
    secret_key self];
   ["dvc"; "remote"; "modify"; remote_name self; "use_ssl"; "false"]].

(** The world reached when the commands [cmds], started one after the
    other in [cwd], all exit zero. *)
Fixpoint all_exit_zero {W : Type} `{Ext : External W}
    (cmds : list (list string)) (cwd : Path) (w : W) : option W :=
  match cmds with
  | [] => Some w
  | cmd :: rest =>
      match spawn cmd cwd w with
      | (inr x, w') =>
          if (exit_code x =? 0)%Z then all_exit_zero rest cwd w' else None
      | (inl _, _) => None
      end
  end.

(** * Properties *)

(** ** Reasoning about runs *)

Ltac run_step :=
  cbv beta iota zeta delta
    [bind try_except call ask ret raise log exists_ resolve mkdir copy
     head_bucket create_bucket upload_file download_file subprocess_run
     negb];
  cbn [app].

Section Runs.

Context {W : Type} `{Ext : External W}.

(** Every call recorded by [m] satisfies [P], whatever the world. *)
Definition emits {A} (P : Event -> Prop) (m : M W A) : Prop :=
  forall w, Forall P (events (m w)).

(** [m] never raises. *)
Definition total {A} (m : M W A) : Prop :=
  forall w, exists a w' ev, m w = (inr a, w', ev).

Lemma emits_ret {A} P (a : A) : emits P (ret a).
Proof. intro w. constructor. Qed.

Lemma emits_raise {A} P e : emits P (raise (A := A) e).
Proof. intro w. constructor. Qed.

Lemma emits_ask {A} P (q : W -> A) : emits P (ask q).
Proof. intro w. constructor. Qed.

Lemma emits_log P lvl msg : P (ELog lvl msg) -> emits P (log lvl msg).
Proof. intros H w. repeat constructor. exact H. Qed.

Lemma emits_call {A} P ev (op : W -> (exn + A) * W) :
  P ev -> emits P (call ev op).
Proof.
  intros H w. unfold call, events. destruct (op w) as [r w'].
  repeat constructor. exact H.
Qed.

Lemma emits_subprocess_run P cmd cwd capture :
  P (ERun cmd cwd) -> emits P (subprocess_run cmd cwd capture).
Proof.
  intros H w. unfold subprocess_run, events.
  destruct (spawn cmd cwd w) as [[e | x] w'];
    [| destruct (exit_code x =? 0)%Z]; repeat constructor; exact H.
Qed.

Lemma emits_bind {A B} P (m : M W A) (f : A -> M W B) :
  emits P m -> (forall a, emits P (f a)) -> emits P (bind m f).
Proof.
  intros Hm Hf w. unfold bind, events. specialize (Hm w).
  destruct (m w) as [[[e | a] w1] ev1]; [exact Hm |].
  specialize (Hf a w1). destruct (f a w1) as [[r w2] ev2].
  apply Forall_app. split; assumption.
Qed.

Lemma emits_try_except {A} P (m : M W A) (h : exn -> option (M W A)) :
  emits P m -> (forall e k, h e = Some k -> emits P k) ->
  emits P (try_except m h).
Proof.
  intros Hm Hh w. unfold try_except, events. specialize (Hm w).
  destruct (m w) as [[[e | a] w1] ev1]; [| exact Hm].
  destruct (h e) as [k |] eqn:Hk; [| exact Hm].
  specialize (Hh e k Hk w1). destruct (k w1) as [[r w2] ev2].
  apply Forall_app. split; assumption.
Qed.

(** A query changes nothing and records nothing. *)
Lemma bind_ask {A B} (q : W -> A) (f : A -> M W B) (w : W) :
  bind (ask q) f w = f (q w) w.
Proof.
  unfold bind, ask. destruct (f (q w) w) as [[r w'] ev]. reflexivity.
Qed.

Lemma total_ret {A} (a : A) : total (ret a).
Proof. intro w. repeat eexists. Qed.

Lemma total_log lvl msg : total (log lvl msg).
Proof. intro w. repeat eexists. Qed.

Lemma total_ask {A} (q : W -> A) : total (ask q).
Proof. intro w. repeat eexists. Qed.

Lemma total_bind {A B} (m : M W A) (f : A -> M W B) :
  total m -> (forall a, total (f a)) -> total (bind m f).
Proof.
  intros Hm Hf w. unfold bind.
  destruct (Hm w) as (a & w1 & ev1 & ->).
  destruct (Hf a w1) as (b & w2 & ev2 & ->). repeat eexists.
Qed.

(** A [try] whose clauses catch every exception and whose handlers do
    not raise themselves never raises. *)
Lemma total_try_except {A} (m : M W A) (h : exn -> option (M W A)) :
  (forall e, exists k, h e = Some k /\ total k) -> total (try_except m h).
Proof.
  intros Hh w. unfold try_except.
  destruct (m w) as [[[e | a] w1] ev1]; [| repeat eexists].
  destruct (Hh e) as (k & -> & Hk).
  destruct (Hk w1) as (b & w2 & ev2 & ->). repeat eexists.
Qed.

End Runs.

(** Decompose [emits] goals along the structure of the computation. *)
Ltac emits_tac :=
  unfold pull, add, push, upload_dvc_file_to_minio, git_add_commit_and_push,
    ensure_dvc_repository, initialize_dvc, configure_remote, bucket_exists,
    ensure_git_repository, create_directory_if_not_exists, exists_, resolve,
    mkdir, copy, head_bucket, create_bucket, upload_file, download_file;
  repeat first
    [ apply emits_ret | apply emits_raise | apply emits_ask
    | apply emits_log | apply emits_call | apply emits_subprocess_run
    | apply emits_bind; [| intro]
    | apply emits_try_except;
        [| let e := fresh "e" in let k := fresh "k" in
           let Hk := fresh "Hk" in
           intros e k Hk; try (destruct e; cbn in Hk);
           try discriminate Hk; injection Hk as <-]
    | match goal with
      | |- emits _ (if ?b then _ else _) => destruct b
      | |- emits _ (match ?o with Some _ => _ | None => _ end) => destruct o
      end ].

Section Claims.

Context {W : Type} `{Ext : External W}.
Variable self : DVCWorker.

(** C10.  On a folder that already holds the versioning tool's metadata
    directory ([.dvc] exists), [ensure_dvc_repository] does nothing at
    all: it returns normally, the world is the one it started in, and no
    call was made (no child process, no object-store request, not even a
    log record).  In particular the remote settings are not touched. *)
Theorem ensure_dvc_repository_initialized_noop :
  forall (folder_path : Path) (stage_type : string) (w : W),
    path_exists (folder_path // ".dvc") w = true ->
    ensure_dvc_repository self folder_path stage_type w = (inr tt, w, []).
Proof.
  intros folder_path stage_type w Hdvc.
  unfold ensure_dvc_repository. run_step. rewrite Hdvc. reflexivity.
Qed.

(** C9.  [bucket_exists] answers [True] when the head-bucket probe
    succeeds and [False] when the store raises [NoSuchBucket]; on any
    other exception it logs an error and answers [False].  It never
    raises. *)
Theorem bucket_exists_probe :
  forall (bucket_name : string) (w : W),
    match s3_head_bucket bucket_name w with
    | (inr _, w') =>
        bucket_exists bucket_name w = (inr true, w', [EHeadBucket bucket_name])
    | (inl e, w') =>
        if is_NoSuchBucket e then
          bucket_exists bucket_name w
          = (inr false, w', [EHeadBucket bucket_name])
        else
          bucket_exists bucket_name w
          = (inr false, w',
             [EHeadBucket bucket_name;
              ELog ERROR ("Error checking bucket existence: " +++ str_exn e)])
    end
    /\ exists b w' ev, bucket_exists bucket_name w = (inr b, w', ev).
Proof.
  intros bucket_name w. unfold bucket_exists. run_step.
  destruct (s3_head_bucket bucket_name w) as [[e | []] w'].
  - destruct (is_NoSuchBucket e); cbn; split; try reflexivity; repeat eexists.
  - cbn. split; [reflexivity | repeat eexists].
Qed.

(** C8.  The commit step first stages everything ([git add .]).  When
    staging and the status query both exit zero: if the status output is
    blank the step returns success with the message "No changes to
    commit in Git repository." and the commit command is not run;
    otherwise its third call is [git commit -m message], and it returns
    success when that exits zero. *)
Theorem git_add_commit_and_push_contract :
  forall (project_path : Path) (message_ : string) (w w1 w2 : W)
         (staged queried : Exit),
    let repo := git_repo_path self in
    let stage := ERun ["git"; "add"; "."] repo in
    let query := ERun ["git"; "status"; "--porcelain"] repo in
    let commit := ERun ["git"; "commit"; "-m"; message_] repo in
    let run := git_add_commit_and_push self project_path message_ w in
    spawn ["git"; "add"; "."] repo w = (inr staged, w1) ->
    exit_code staged = 0%Z ->
    spawn ["git"; "status"; "--porcelain"] repo w1 = (inr queried, w2) ->
    exit_code queried = 0%Z ->
    if PyStr.truthy (PyStr.strip (exit_stdout queried)) then
      match spawn ["git"; "commit"; "-m"; message_] repo w2 with
      | (inr committed, w3) =>
          if (exit_code committed =? 0)%Z then
            run = (inr (msg_result "success"
                          "Changes committed (and optionally pushed) to Git repository."),
                   w3,
                   [stage; query; commit;
                    ELog INFO "Committed and (optionally) pushed DVC changes to Git repository."])
          else
            let m := str_CalledProcessError (exit_code committed)
                       ["git"; "commit"; "-m"; message_] in
            run = (inr (msg_result "error" m), w3,
                   [stage; query; commit;
                    ELog ERROR ("Error committing (and pushing) to Git: " +++ m)])
      | (inl e, w3) =>
          exists o rest,
            run = (o, w3, stage :: query :: commit :: rest)
      end
    else
      run = (inr (msg_result "success" "No changes to commit in Git repository."),
             w2,
             [stage; query; ELog INFO "No changes to commit in Git repository."]).
Proof.
  intros project_path message_ w w1 w2 staged queried repo stage query commit
         run Hadd Hadd0 Hstatus Hstatus0.
  subst run. unfold git_add_commit_and_push. run_step.
  fold repo. rewrite Hadd, Hadd0. cbn [Z.eqb]. rewrite Hstatus, Hstatus0.
  cbn [Z.eqb cp_stdout fmt_opt].
  destruct (PyStr.truthy (PyStr.strip (exit_stdout queried))); cbn [negb].
  - destruct (spawn ["git"; "commit"; "-m"; message_] repo w2)
      as [[e | committed] w3].
    + destruct (is_CalledProcessError e); repeat eexists.
    + destruct (exit_code committed =? 0)%Z; cbn.
      * reflexivity.
      * reflexivity.
  - reflexivity.
Qed.

(** C3.  When the folder exists, [dvc add] exits zero and the manifest
    [{folder_name}.dvc] is nevertheless absent from the folder's parent
    directory, [add] returns the error result ".dvc file not found for
    {folder_name}." and has made no call besides the tracking command
    and two log records: no directory creation, no copy, no git
    command. *)
Theorem add_manifest_missing :
  forall (folder_path0 : Path) (folder_name stage_type : string)
         (w w1 : W) (tracked : Exit),
    let folder_path := path_resolve folder_path0 w in
    let dvc_file := PyPath.parent folder_path // (folder_name +++ ".dvc") in
    path_exists folder_path w = true ->
    spawn ["dvc"; "add"; PyPath.str folder_path] (PyPath.parent folder_path) w
    = (inr tracked, w1) ->
    exit_code tracked = 0%Z ->
    path_exists dvc_file w1 = false ->
    add self folder_path0 folder_name stage_type w
    = (inr (msg_result "error" (".dvc file not found for " +++ folder_name +++ ".")),
       w1,
       [ERun ["dvc"; "add"; PyPath.str folder_path] (PyPath.parent folder_path);
        ELog INFO ("Added " +++ folder_name +++ " to DVC tracking.");
        ELog ERROR (".dvc file not found for " +++ folder_name +++ ". Expected at "
                    +++ PyPath.str dvc_file +++ ".")]).
Proof.
  intros folder_path0 folder_name stage_type w w1 tracked folder_path dvc_file
         Hexists Hadd Hzero Hmissing.
  unfold add. run_step. fold folder_path. rewrite Hexists, Hadd, Hzero.
  cbn [Z.eqb]. fold dvc_file. rewrite Hmissing. reflexivity.
Qed.

(** [add] on a folder that does not exist. *)
Lemma add_missing_folder_raises_aux :
  forall (folder_path0 : Path) (folder_name stage_type : string) (w : W),
    path_exists (path_resolve folder_path0 w) w = false ->
    add self folder_path0 folder_name stage_type w
    = (inl (FileNotFoundError
              ("The folder '" +++ PyPath.str (path_resolve folder_path0 w)
               +++ "' does not exist.")),
       w, []).
Proof.
  intros folder_path0 folder_name stage_type w Hmissing.
  unfold add. run_step. rewrite Hmissing. reflexivity.
Qed.

(** C5, as the code has it.  When the folder does not exist, [add]
    raises [FileNotFoundError] to its caller (it does not return a
    result), the world is unchanged and no call was made: no tracking
    command, no write to the archive, no commit, no log record. *)
Theorem add_missing_folder_raises :
  forall (folder_path0 : Path) (folder_name stage_type : string) (w : W),
    path_exists (path_resolve folder_path0 w) w = false ->
    add self folder_path0 folder_name stage_type w
    = (inl (FileNotFoundError
              ("The folder '" +++ PyPath.str (path_resolve folder_path0 w)
               +++ "' does not exist.")),
       w, []).
Proof. exact add_missing_folder_raises_aux. Qed.

(** What [publish_pipeline] amounts to, step by step. *)
Lemma publish_pipeline_steps :
  forall (folder_path0 : Path) (folder_name stage_type : string) (w : W),
    let folder_path := path_resolve folder_path0 w in
    let run := publish_pipeline self folder_path0 folder_name stage_type w in
    match add self folder_path folder_name stage_type w with
    | (inl e, w1, ev1) => run = (inl e, w1, ev1)
    | (inr r1, w1, ev1) =>
        if is_error r1 then run = (inr r1, w1, ev1) else
        match push folder_path w1 with
        | (inl e, w2, ev2) => run = (inl e, w2, ev1 ++ ev2)
        | (inr r2, w2, ev2) =>
            if is_error r2 then run = (inr r2, w2, ev1 ++ ev2) else
            match upload_dvc_file_to_minio self
                    (PyPath.parent folder_path // (folder_name +++ ".dvc"))
                    stage_type w2 with
            | (inl e, w3, ev3) => run = (inl e, w3, ev1 ++ ev2 ++ ev3)
            | (inr r3, w3, ev3) =>
                if is_error r3 then run = (inr r3, w3, ev1 ++ ev2 ++ ev3)
                else run = (inr (msg_result "success"
                                   "Data added to DVC, pushed to remote storage, and .dvc file uploaded to MinIO."),
                            w3, ev1 ++ ev2 ++ ev3)
            end
        end
    end.
Proof.
  intros folder_path0 folder_name stage_type w folder_path run. subst run.
  unfold publish_pipeline. run_step. fold folder_path.
  destruct (add self folder_path folder_name stage_type w)
    as [[[e | r1] w1] ev1]; [reflexivity |].
  destruct (is_error r1); [rewrite app_nil_r; reflexivity |].
  destruct (push folder_path w1) as [[[e | r2] w2] ev2]; [reflexivity |].
  destruct (is_error r2); [rewrite app_nil_r; reflexivity |].
  destruct (upload_dvc_file_to_minio self _ stage_type w2)
    as [[[e | r3] w3] ev3]; [reflexivity |].
  destruct (is_error r3); rewrite app_nil_r; reflexivity.
Qed.

(** C1.  [add_and_push_data] is the pipeline of the specification:
    [add], then [push], then [upload_dvc_file_to_minio], each started
    only when the previous one returned a non-error result; the result
    of the first step that returns an error status is returned as it
    is, and the fixed success result is returned when all three
    succeed.  The world reached and the calls made are those of the
    steps that ran, in that order.  The folder-existence guard of
    [add_and_push_data] is the one [add] starts with; [Path.resolve] is
    taken to be idempotent on the folder. *)
Theorem add_and_push_data_is_pipeline :
  forall (folder_path0 : Path) (folder_name stage_type : string) (w : W),
    path_resolve (path_resolve folder_path0 w) w = path_resolve folder_path0 w ->
    add_and_push_data self folder_path0 folder_name stage_type w
    = publish_pipeline self folder_path0 folder_name stage_type w.
Proof.
  intros folder_path0 folder_name stage_type w Hidem.
  unfold add_and_push_data, publish_pipeline, resolve, exists_.
  rewrite !bind_ask.
  destruct (path_exists (path_resolve folder_path0 w) w) eqn:Hexists;
    cbn [negb].
  - reflexivity.
  - unfold bind at 1.
    rewrite (add_missing_folder_raises_aux (path_resolve folder_path0 w));
      rewrite Hidem; [reflexivity | exact Hexists].
Qed.

(** A manifest file name is a single path segment. *)
Lemma split_single (s : string) :
  (forall c, In c (list_ascii_of_string s) -> c <> "/"%char) ->
  PyStr.split "/" s = [s].
Proof.
  induction s as [| c s IH]; intro Hno; [reflexivity |].
  cbn [PyStr.split]. destruct (Ascii.eqb_spec c "/"%char) as [-> | _].
  - exfalso. apply (Hno "/"%char); [left |]; reflexivity.
  - rewrite IH; [reflexivity |]. intros c' Hc'. apply Hno. right. exact Hc'.
Qed.

Lemma name_of_file_in_directory (directory : Path) (filename : string) :
  (forall c, In c (list_ascii_of_string filename) -> c <> "/"%char) ->
  filename <> "" -> filename <> "." ->
  PyPath.name (directory // filename) = filename.
Proof.
  intros Hno Hne Hdot. unfold PyPath.div, PyPath.of_str, PyPath.name.
  rewrite (split_single filename Hno). cbn [filter].
  assert (Hseg : PyPath.is_segment filename = true).
  { unfold PyPath.is_segment.
    destruct (String.eqb_spec filename "") as [? | _]; [contradiction |].
    destruct (String.eqb_spec filename ".") as [? | _]; [contradiction |].
    reflexivity. }
  rewrite Hseg.
  assert (Hanchor : match filename with String "/" _ => true | _ => false end
                    = false).
  { destruct filename as [| c rest]; [reflexivity |].
    destruct (Ascii.eqb_spec c "/"%char) as [-> | Hc].
    - exfalso. apply (Hno "/"%char); [left |]; reflexivity.
    - destruct c as [[] [] [] [] [] [] [] []]; try reflexivity.
      exfalso. apply Hc. reflexivity. }
  rewrite Hanchor. cbn [anchored parts]. apply last_last.
Qed.

(** The manifest stored from [directory / filename] is the one [pull]
    asks for under [filename]. *)
Lemma manifest_key_of_filename
    (stage_type filename : string) (directory : Path) :
  (forall c, In c (list_ascii_of_string filename) -> c <> "/"%char) ->
  filename <> "" -> filename <> "." ->
  target_path self (directory // filename) stage_type
  = dvc_file_key self stage_type filename.
Proof.
  intros Hno Hne Hdot. unfold target_path, dvc_file_key.
  rewrite name_of_file_in_directory by assumption. reflexivity.
Qed.

(** C6.  The key under which [upload_dvc_file_to_minio] stores a
    manifest is the key from which [pull] fetches the manifest of that
    name: [{dag_id}_{execution_id}/{stage_type}/dvc_files/{name}].
    Every upload made by the former and every download made by the
    latter goes to that key of the worker's bucket. *)
Theorem manifest_key_round_trip :
  forall (stage_type : string) (dvc_file_path destination : Path),
    let key := dag_id self +++ "_" +++ execution_id self +++ "/" +++ stage_type
               +++ "/dvc_files/" +++ PyPath.name dvc_file_path in
    target_path self dvc_file_path stage_type = key
    /\ dvc_file_key self stage_type (PyPath.name dvc_file_path) = key
    /\ emits (fun ev => match ev with
                        | EUpload _ b k => b = minio_bucket self /\ k = key
                        | EDownload _ _ _ => False
                        | _ => True
                        end)
             (upload_dvc_file_to_minio self dvc_file_path stage_type)
    /\ emits (fun ev => match ev with
                        | EDownload b k _ => b = minio_bucket self /\ k = key
                        | EUpload _ _ _ => False
                        | _ => True
                        end)
             (pull self stage_type (PyPath.name dvc_file_path) destination).
Proof.
  intros stage_type dvc_file_path destination key.
  split; [reflexivity |]. split; [reflexivity |].
  split; emits_tac; cbn; auto.
Qed.

Lemma filter_none {A} (f : A -> bool) (l : list A) :
  Forall (fun x => f x = false) l -> filter f l = [].
Proof.
  induction 1 as [| x l Hx _ IH]; cbn; [| rewrite Hx]; auto.
Qed.




(** [add] drops what the commit step returns: once the manifest has
    been copied, the result of [add] is the success result whatever
    result [r] the commit step reported. *)
Lemma add_discards_commit_result :
  forall (folder_path0 : Path) (folder_name stage_type : string)
         (w w1 w2 w3 w4 : W) (tracked : Exit) (ev2 ev4 : list Event)
         (r : Result),
    let folder_path := path_resolve folder_path0 w in
    let dvc_file := PyPath.parent folder_path // (folder_name +++ ".dvc") in
    let storage :=
      path_resolve (git_repo_path self // stage_type
                    // (stage_type +++ "_" +++ folder_name)) w1 in
    path_exists folder_path w = true ->
    spawn ["dvc"; "add"; PyPath.str folder_path] (PyPath.parent folder_path) w
    = (inr tracked, w1) ->
    exit_code tracked = 0%Z ->
    path_exists dvc_file w1 = true ->
    create_directory_if_not_exists storage w1 = (inr tt, w2, ev2) ->
    shutil_copy (PyPath.str dvc_file) (PyPath.str storage) w2 = (inr tt, w3) ->
    git_add_commit_and_push self (git_repo_path self)
      ("Add " +++ folder_name +++ " dataset DVC file") w3 = (inr r, w4, ev4) ->
    add self folder_path0 folder_name stage_type w
    = (inr (msg_result "success"
              ("Folder " +++ folder_name
               +++ " added to DVC tracking and DVC file committed to Git.")),
       w4,
       ERun ["dvc"; "add"; PyPath.str folder_path] (PyPath.parent folder_path)
       :: ELog INFO ("Added " +++ folder_name +++ " to DVC tracking.")
       :: ev2
       ++ ECopy (PyPath.str dvc_file) (PyPath.str storage) :: ev4).
Proof.
  intros folder_path0 folder_name stage_type w w1 w2 w3 w4 tracked ev2 ev4 r
         folder_path dvc_file storage Hexists Hadd Hzero Hfound Hdir Hcopy
         Hcommit.
  unfold add. run_step. fold folder_path. rewrite Hexists, Hadd, Hzero.
  cbn [Z.eqb]. fold dvc_file. rewrite Hfound. fold storage.
  rewrite Hdir, Hcopy, Hcommit. cbn [app]. rewrite app_nil_r. reflexivity.
Qed.

End Claims.

(** * Runs in the simulated world *)

(** An artifact folder that already holds [.dvc]. *)
Lemma ensure_dvc_repository_initialized_noop_witness :
  Sim.has_path (Sim.folder // ".dvc") Scenario.w_versioned = true
  /\ ensure_dvc_repository (Ext := Sim.external Sim.no_faults) Sim.worker
       Sim.folder "preprocess" Scenario.w_versioned
     = (inr tt, Scenario.w_versioned, []).
Proof.
  split; [reflexivity |].
  apply (ensure_dvc_repository_initialized_noop
           (Ext := Sim.external Sim.no_faults)).
  reflexivity.
Defined.

(** The commit step on a clean and on a changed archive. *)
Lemma git_add_commit_and_push_contract_witness :
  git_add_commit_and_push (Ext := Sim.external Sim.no_faults) Sim.worker
    Scenario.repo "Add result dataset DVC file" Sim.w0
  = (inr (msg_result "success" "No changes to commit in Git repository."),
     Sim.w0,
     [ERun ["git"; "add"; "."] Scenario.repo;
      ERun ["git"; "status"; "--porcelain"] Scenario.repo;
      ELog INFO "No changes to commit in Git repository."])
  /\ git_add_commit_and_push (Ext := Sim.external Sim.no_faults) Sim.worker
       Scenario.repo "Add result dataset DVC file" Scenario.w_dirty
     = (inr (msg_result "success"
               "Changes committed (and optionally pushed) to Git repository."),
        Sim.w0,
        [ERun ["git"; "add"; "."] Scenario.repo;
         ERun ["git"; "status"; "--porcelain"] Scenario.repo;
         ERun ["git"; "commit"; "-m"; "Add result dataset DVC file"] Scenario.repo;
         ELog INFO "Committed and (optionally) pushed DVC changes to Git repository."]).
Proof.
  split.
  - exact (git_add_commit_and_push_contract
             (Ext := Sim.external Sim.no_faults) Sim.worker Scenario.repo
             "Add result dataset DVC file" Sim.w0 Sim.w0 Sim.w0
             (mkExit 0 "" "") (mkExit 0 "" "")
             eq_refl eq_refl eq_refl eq_refl).
  - exact (git_add_commit_and_push_contract
             (Ext := Sim.external Sim.no_faults) Sim.worker Scenario.repo
             "Add result dataset DVC file" Scenario.w_dirty Scenario.w_dirty
             Scenario.w_dirty
             (mkExit 0 "" "") (mkExit 0 ("A  data.dvc" +++ nl) "")
             eq_refl eq_refl eq_refl eq_refl).
Defined.

(** [dvc add] exits 0 and leaves no manifest behind. *)
Lemma add_manifest_missing_witness :
  add (Ext := Sim.external Scenario.no_manifest) Sim.worker Sim.folder
    "stage1_result" "preprocess" Sim.w0
  = (inr (msg_result "error" ".dvc file not found for stage1_result."),
     Sim.w0,
     [ERun ["dvc"; "add"; "/out/stage1_result"] (PyPath.of_str "/out");
      ELog INFO "Added stage1_result to DVC tracking.";
      ELog ERROR ".dvc file not found for stage1_result. Expected at /out/stage1_result.dvc."]).
Proof.
  exact (add_manifest_missing (Ext := Sim.external Scenario.no_manifest)
           Sim.worker Sim.folder "stage1_result" "preprocess" Sim.w0 Sim.w0
           (mkExit 0 "" "") eq_refl eq_refl eq_refl eq_refl).
Defined.

(** [add] where nothing exists. *)
Lemma add_missing_folder_raises_witness :
  Sim.has_path Sim.folder Sim.empty = false
  /\ add (Ext := Sim.external Sim.no_faults) Sim.worker Sim.folder
       "stage1_result" "preprocess" Sim.empty
     = (inl (FileNotFoundError "The folder '/out/stage1_result' does not exist."),
        Sim.empty, []).
Proof.
  split; [reflexivity |].
  exact (add_missing_folder_raises (Ext := Sim.external Sim.no_faults)
           Sim.worker Sim.folder "stage1_result" "preprocess" Sim.empty
           eq_refl).
Defined.

(** C5, as stated, fails: on a folder that does not exist [add] returns
    nothing, it raises. *)
Lemma add_missing_folder_returns_nothing :
  returned (add (Ext := Sim.external Sim.no_faults) Sim.worker Sim.folder
              "stage1_result" "preprocess" Sim.empty)
  = false.
Proof. reflexivity. Qed.

(** Publishing an existing folder, and a missing one. *)
Lemma add_and_push_data_is_pipeline_witness :
  add_and_push_data (Ext := Sim.external Sim.no_faults) Sim.worker Sim.folder
    "stage1_result" "preprocess" Sim.w0
  = publish_pipeline (Ext := Sim.external Sim.no_faults) Sim.worker Sim.folder
      "stage1_result" "preprocess" Sim.w0
  /\ add_and_push_data (Ext := Sim.external Sim.no_faults) Sim.worker Sim.folder
       "stage1_result" "preprocess" Sim.empty
     = publish_pipeline (Ext := Sim.external Sim.no_faults) Sim.worker Sim.folder
         "stage1_result" "preprocess" Sim.empty.
Proof.
  split;
    apply (add_and_push_data_is_pipeline (Ext := Sim.external Sim.no_faults));
    reflexivity.
Defined.





(** C2 at the failing input: the manifest is copied into the archive,
    [git commit] exits 1, the commit step returns an error result in
    the world [add] runs it in, and [add] still returns success with a
    message saying the manifest was committed. *)
Theorem add_success_despite_failed_commit :
  let run := add (Ext := Sim.external Scenario.commit_fails) Sim.worker
               Sim.folder "stage1_result" "preprocess" Sim.w0 in
  outcome run
  = inr (msg_result "success"
           "Folder stage1_result added to DVC tracking and DVC file committed to Git.")
  /\ In (ERun ["git"; "commit"; "-m"; "Add stage1_result dataset DVC file"]
           Scenario.repo) (events run)
  /\ outcome (git_add_commit_and_push (Ext := Sim.external Scenario.commit_fails)
                Sim.worker Scenario.repo "Add stage1_result dataset DVC file"
                (world_after run))
     = inr (msg_result "error"
              "Command '['git', 'commit', '-m', 'Add stage1_result dataset DVC file']' returned non-zero exit status 1.").
Proof.
  repeat split; vm_compute; auto 20.
Qed.

(** Scenario A of the specification: after publishing, the manifest is
    in the archive and under the remote key, and [pull] into a fresh
    destination fetches it from that key and runs [dvc pull]. *)
Example publish_then_retrieve :
  let published := add_and_push_data (Ext := Sim.external Sim.no_faults)
                     Sim.worker Sim.folder "stage1_result" "preprocess" Sim.w0 in
  let w1 := Sim.touch (PyPath.of_str "/in") (world_after published) in
  let retrieved := pull (Ext := Sim.external Sim.no_faults) Sim.worker
                     "preprocess" "stage1_result.dvc" (PyPath.of_str "/in") w1 in
  uploads (events published)
  = [("datasets", "P1_R1/preprocess/dvc_files/stage1_result.dvc")]
  /\ downloads (events retrieved) = uploads (events published)
  /\ Sim.has_path
       (PyPath.of_str "/srv/archive/preprocess/preprocess_stage1_result/stage1_result.dvc")
       (world_after published) = true
  /\ outcome retrieved = inr (out_result "success" (Some "") (Some ""))
  /\ filter (is_run_of ["dvc"; "pull"]) (events retrieved)
     = [ERun ["dvc"; "pull"; "/in/stage1_result.dvc"] (PyPath.of_str "/in")].
Proof. repeat split. Qed.

(** * Further properties of the class *)

Ltac destruct_calls :=
  repeat match goal with
    | |- context [spawn ?c ?d ?w] =>
        let x := fresh "x" in
        destruct (spawn c d w) as [[? | x] ?];
        [| destruct (exit_code x =? 0)%Z eqn:?]
    | |- context [s3_create_bucket ?b ?w] =>
        destruct (s3_create_bucket b w) as [[? | []] ?]
    | |- context [s3_upload_file ?f ?b ?k ?w] =>
        destruct (s3_upload_file f b k w) as [[? | []] ?]
    | |- context [s3_head_bucket ?b ?w] =>
        destruct (s3_head_bucket b w) as [[? | []] ?]
    end.

Ltac destruct_handlers :=
  cbn [is_CalledProcessError is_NoSuchBucket is_FileNotFoundError];
  repeat match goal with
    | |- context [is_CalledProcessError ?e] => destruct (is_CalledProcessError e)
    | |- context [is_NoSuchBucket ?e] => destruct (is_NoSuchBucket e)
    | |- context [is_FileNotFoundError ?e] => destruct (is_FileNotFoundError e)
    end.

Ltac total_steps :=
  repeat first
    [ apply total_ret | apply total_log | apply total_ask
    | apply total_bind; [| intro] ].

Section More.

Context {W : Type} `{Ext : External W}.
Variable self : DVCWorker.

Lemma bucket_exists_no_run (bucket_name : string) :
  emits (fun ev => is_run ev = false) (bucket_exists bucket_name).
Proof. emits_tac; reflexivity. Qed.

Lemma bucket_exists_total (bucket_name : string) :
  total (bucket_exists bucket_name).
Proof.
  unfold bucket_exists. apply total_try_except. intro e.
  destruct (is_NoSuchBucket e); eexists; (split; [reflexivity |]); total_steps.
Qed.

Ltac exits_zero H :=
  repeat match type of H with
    | context [spawn ?c ?d ?w] =>
        let x := fresh "x" in
        let w' := fresh "w" in
        let Hx := fresh "Hx" in
        destruct (spawn c d w) as [[? | x] w']; [discriminate H |];
        destruct (exit_code x =? 0)%Z eqn:Hx; [| discriminate H]
    end.

(** [configure_remote] stops at the first configuration command that
    fails.  Once the bucket is known or was created, if the first [k]
    of the five [dvc remote] commands exit zero and the next one exits
    non-zero, then that one is the last command started: the result is
    the error result with the rendering of its [CalledProcessError], the
    world is the one it left, and the commands started are the first
    [k + 1], in order, all in [project_path]. *)
Theorem configure_remote_stops_at_first_failure :
  forall (project_path : Path) (appointed_bucket service_type : string)
         (w wb w0 wk w' : W) (evb : list Event) (known : bool) (k : nat)
         (x : Exit),
    let commands := remote_commands self appointed_bucket service_type in
    let failing := nth k commands [] in
    let run := configure_remote self project_path appointed_bucket
                 service_type w in
    bucket_exists appointed_bucket w = (inr known, wb, evb) ->
    (if known then w0 = wb
     else s3_create_bucket appointed_bucket wb = (inr tt, w0)) ->
    (k < 5)%nat ->
    all_exit_zero (firstn k commands) project_path w0 = Some wk ->
    spawn failing project_path wk = (inr x, w') ->
    exit_code x <> 0%Z ->
    outcome run
    = inr (msg_result "error" (str_CalledProcessError (exit_code x) failing))
    /\ world_after run = w'
    /\ filter is_run (events run)
       = map (fun cmd => ERun cmd project_path) (firstn (S k) commands).
Proof.
  intros project_path appointed_bucket service_type w wb w0 wk w' evb known k
         x commands failing run Hprobe Hbucket Hk Hzero Hfail Hcode.
  pose proof (bucket_exists_no_run appointed_bucket w) as Hevb.
  apply filter_none in Hevb. rewrite Hprobe in Hevb.
  unfold events in Hevb. cbn [snd] in Hevb.
  apply Z.eqb_neq in Hcode.
  subst run commands failing. unfold configure_remote, remote_commands in *.
  run_step. rewrite Hprobe.
  destruct known; cbn [negb]; [subst w0 | rewrite Hbucket];
    (destruct k as [| [| [| [| [| k]]]]]; [.. | exfalso; lia]);
    cbn [firstn nth all_exit_zero] in Hzero, Hfail |- *;
    exits_zero Hzero; injection Hzero as ->;
    rewrite Hfail, Hcode; cbn [is_CalledProcessError];
    unfold outcome, world_after, events; cbn [fst snd map app];
    (split; [reflexivity |]); (split; [reflexivity |]);
    rewrite ?filter_app, Hevb; reflexivity.
Qed.

(** When the bucket is known or was created and the five commands all
    exit zero, [configure_remote] returns its success result in the
    world the last command left, having started the five commands in
    order, all in [project_path]. *)
Theorem configure_remote_success :
  forall (project_path : Path) (appointed_bucket service_type : string)
         (w wb w0 w5 : W) (evb : list Event) (known : bool),
    let commands := remote_commands self appointed_bucket service_type in
    let run := configure_remote self project_path appointed_bucket
                 service_type w in
    bucket_exists appointed_bucket w = (inr known, wb, evb) ->
    (if known then w0 = wb
     else s3_create_bucket appointed_bucket wb = (inr tt, w0)) ->
    all_exit_zero commands project_path w0 = Some w5 ->
    outcome run
    = inr (msg_result "success"
             "DVC initialized and MinIO remote configured successfully.")
    /\ world_after run = w5
    /\ filter is_run (events run)
       = map (fun cmd => ERun cmd project_path) commands.
Proof.
  intros project_path appointed_bucket service_type w wb w0 w5 evb known
         commands run Hprobe Hbucket Hzero.
  pose proof (bucket_exists_no_run appointed_bucket w) as Hevb.
  apply filter_none in Hevb. rewrite Hprobe in Hevb.
  unfold events in Hevb. cbn [snd] in Hevb.
  subst run commands. unfold configure_remote, remote_commands in *.
  run_step. rewrite Hprobe.
  destruct known; cbn [negb]; [subst w0 | rewrite Hbucket];
    cbn [all_exit_zero] in Hzero |- *;
    exits_zero Hzero; injection Hzero as ->;
    unfold outcome, world_after, events; cbn [fst snd map app];
    (split; [reflexivity |]); (split; [reflexivity |]);
    rewrite ?filter_app, Hevb; reflexivity.
Qed.

(** [upload_dvc_file_to_minio] and [configure_remote] ask for the bucket
    to be created exactly when the probe did not succeed, be it because
    the bucket is missing or because the probe itself failed. *)
Theorem bucket_created_iff_probe_fails :
  forall (dvc_file_path project_path : Path) (stage_type : string) (w : W),
    let probe_failed :=
      match fst (s3_head_bucket (minio_bucket self) w) with
      | inr _ => false
      | inl _ => true
      end in
    existsb is_create_bucket
      (events (upload_dvc_file_to_minio self dvc_file_path stage_type w))
    = probe_failed
    /\ existsb is_create_bucket
         (events (configure_remote self project_path (minio_bucket self)
                    stage_type w))
       = probe_failed.
Proof.
  intros dvc_file_path project_path stage_type w probe_failed.
  subst probe_failed.
  unfold upload_dvc_file_to_minio, configure_remote, bucket_exists.
  run_step. split.
  - destruct (s3_head_bucket (minio_bucket self) w) as [[e | []] w1];
      cbn [fst]; destruct_handlers; cbn [negb]; destruct_calls;
      reflexivity.
  - destruct (s3_head_bucket (minio_bucket self) w) as [[e | []] w1];
      cbn [fst]; destruct_handlers; cbn [negb]; destruct_calls;
      destruct_handlers; reflexivity.
Qed.

(** What [upload_dvc_file_to_minio] returns, by what the store does.
    The file is uploaded only once the bucket is known or was created;
    when creating the bucket fails nothing is uploaded and that failure
    is the result; otherwise the result is the outcome of the upload. *)
Theorem upload_dvc_file_to_minio_outcomes :
  forall (dvc_file_path : Path) (stage_type : string) (w : W),
    let bucket := minio_bucket self in
    let key := target_path self dvc_file_path stage_type in
    let file := PyPath.str dvc_file_path in
    let run := upload_dvc_file_to_minio self dvc_file_path stage_type w in
    let uploaded w1 :=
      match s3_upload_file file bucket key w1 with
      | (inr _, w2) =>
          outcome run
          = inr (msg_result "success"
                   ("Uploaded .dvc file to MinIO at " +++ bucket +++ "/" +++ key))
          /\ world_after run = w2 /\ uploads (events run) = [(bucket, key)]
      | (inl e, w2) =>
          outcome run = inr (msg_result "error" (str_exn e))
          /\ world_after run = w2 /\ uploads (events run) = [(bucket, key)]
      end in
    match s3_head_bucket bucket w with
    | (inr _, w1) => uploaded w1
    | (inl _, w1) =>
        match s3_create_bucket bucket w1 with
        | (inr _, w2) => uploaded w2
        | (inl e, w2) =>
            outcome run = inr (msg_result "error" (str_exn e))
            /\ world_after run = w2 /\ uploads (events run) = []
        end
    end.
Proof.
  intros dvc_file_path stage_type w bucket key file run uploaded.
  subst run uploaded. unfold upload_dvc_file_to_minio, bucket_exists.
  run_step. fold bucket key file.
  destruct (s3_head_bucket bucket w) as [[e | []] w1];
    destruct_handlers; cbn [negb]; destruct_calls;
    repeat split.
Qed.

(** [push] runs exactly one command, [dvc push] in the resolved parent
    of the resolved folder, and returns the captured output and error
    streams as they are, with status success when the command exits
    zero and error otherwise.  When the process cannot be started the
    failure is returned as an error message. *)
Theorem push_reports_streams :
  forall (folder_path0 : Path) (w : W),
    let root := path_resolve (PyPath.parent (path_resolve folder_path0 w)) w in
    let run := push folder_path0 w in
    filter is_run (events run) = [ERun ["dvc"; "push"] root]
    /\ filter is_store_call (events run) = []
    /\ match spawn ["dvc"; "push"] root w with
       | (inr x, w1) =>
           outcome run
           = inr (out_result (if (exit_code x =? 0)%Z then "success" else "error")
                    (Some (exit_stdout x)) (Some (exit_stderr x)))
           /\ world_after run = w1
       | (inl e, w1) =>
           outcome run
           = inr match e with
                 | CalledProcessError _ _ o er => out_result "error" o er
                 | _ => msg_result "error" (str_exn e)
                 end
           /\ world_after run = w1
       end.
Proof.
  intros folder_path0 w root run. subst run. unfold push. run_step.
  fold root.
  destruct (spawn ["dvc"; "push"] root w) as [[e | x] w1].
  - destruct e; repeat split.
  - destruct (exit_code x =? 0)%Z; repeat split.
Qed.

Lemma ensure_dvc_repository_noop_aux
    (folder_path : Path) (stage_type : string) (w : W) :
  path_exists (folder_path // ".dvc") w = true ->
  ensure_dvc_repository self folder_path stage_type w = (inr tt, w, []).
Proof.
  intro Hdvc. unfold ensure_dvc_repository. run_step. rewrite Hdvc.
  reflexivity.
Qed.

(** A failing [dvc init] is not caught by [initialize_dvc]: the
    [CalledProcessError] propagates, and neither the archive repository
    is looked at nor the remote configured. *)
Theorem initialize_dvc_init_failure :
  forall (dvc_repo_path0 : Path) (stage_type : string) (w w1 : W) (x : Exit),
    let dvc_repo_path := path_resolve dvc_repo_path0 w in
    path_exists (dvc_repo_path // ".dvc") w = false ->
    spawn ["dvc"; "init"; "--no-scm"] dvc_repo_path w = (inr x, w1) ->
    exit_code x <> 0%Z ->
    initialize_dvc self dvc_repo_path0 stage_type w
    = (inl (CalledProcessError (exit_code x) ["dvc"; "init"; "--no-scm"]
              None None),
       w1,
       [ELog DEBUG ("Initializing DVC repository at " +++ PyPath.str dvc_repo_path);
        ERun ["dvc"; "init"; "--no-scm"] dvc_repo_path]).
Proof.
  intros dvc_repo_path0 stage_type w w1 x dvc_repo_path Hnew Hinit Hcode.
  unfold initialize_dvc. run_step. fold dvc_repo_path. rewrite Hnew, Hinit.
  apply Z.eqb_neq in Hcode. rewrite Hcode. reflexivity.
Qed.

(** When the destination is not yet a versioning root and [dvc init]
    fails there, [pull] returns an error result carrying the rendering
    of the [CalledProcessError]; nothing is asked of the object store
    and [dvc pull] is not run. *)
Theorem pull_dvc_init_failure :
  forall (stage_type dvc_filename : string) (folder_path0 : Path)
         (w w1 : W) (x : Exit),
    let folder_path := path_resolve folder_path0 w in
    let dvc_repo_path := path_resolve folder_path w in
    let why := str_CalledProcessError (exit_code x) ["dvc"; "init"; "--no-scm"] in
    path_exists folder_path w = true ->
    path_exists (folder_path // ".dvc") w = false ->
    path_exists (dvc_repo_path // ".dvc") w = false ->
    spawn ["dvc"; "init"; "--no-scm"] dvc_repo_path w = (inr x, w1) ->
    exit_code x <> 0%Z ->
    pull self stage_type dvc_filename folder_path0 w
    = (inr (msg_result "error" why), w1,
       [ELog INFO ("Directory " +++ PyPath.str folder_path
                   +++ " is not a DVC repository. Initializing a new DVC repository with --no-scm.");
        ELog DEBUG ("Initializing DVC repository at " +++ PyPath.str dvc_repo_path);
        ERun ["dvc"; "init"; "--no-scm"] dvc_repo_path;
        ELog ERROR ("Error during pull operation: " +++ why)]).
Proof.
  intros stage_type dvc_filename folder_path0 w w1 x folder_path dvc_repo_path
         why Hexists Hnew Hnew' Hinit Hcode.
  unfold pull, resolve, exists_. rewrite bind_ask. fold folder_path.
  unfold try_except at 1. rewrite bind_ask, Hexists. cbn [negb].
  unfold bind at 1. unfold ensure_dvc_repository, exists_.
  rewrite bind_ask, Hnew. cbn [negb]. unfold bind at 1, log at 1.
  unfold bind at 1.
  rewrite (initialize_dvc_init_failure folder_path stage_type w w1 x
             Hnew' Hinit Hcode).
  reflexivity.
Qed.

(** On a destination that is already a versioning root, [pull] fetches
    the manifest into [folder / dvc_filename] and then runs
    [dvc pull] on that file in the destination; it returns the captured
    streams of the command, with status success when it exits zero and
    error otherwise. *)
Theorem pull_fetch_then_sync :
  forall (stage_type dvc_filename : string) (folder_path0 : Path)
         (w w1 w2 : W) (x : Exit),
    let folder_path := path_resolve folder_path0 w in
    let file := PyPath.str (folder_path // dvc_filename) in
    let key := dvc_file_key self stage_type dvc_filename in
    let sync := ["dvc"; "pull"; file] in
    path_exists folder_path w = true ->
    path_exists (folder_path // ".dvc") w = true ->
    s3_download_file (minio_bucket self) key file w = (inr tt, w1) ->
    spawn sync folder_path w1 = (inr x, w2) ->
    pull self stage_type dvc_filename folder_path0 w
    = (inr (out_result (if (exit_code x =? 0)%Z then "success" else "error")
              (Some (exit_stdout x)) (Some (exit_stderr x))),
       w2,
       [ELog INFO ("Downloading .dvc file from MinIO: " +++ key +++ " to " +++ file);
        EDownload (minio_bucket self) key file;
        ELog INFO ("Downloaded " +++ dvc_filename +++ " to " +++ file);
        ERun sync folder_path;
        if (exit_code x =? 0)%Z
        then ELog INFO ("Pulled data from remote storage for " +++ dvc_filename +++ ".")
        else ELog ERROR ("Error pulling data from remote storage: "
                         +++ str_CalledProcessError (exit_code x) sync)]).
Proof.
  intros stage_type dvc_filename folder_path0 w w1 w2 x folder_path file key
         sync Hexists Hdvc Hdown Hpull.
  unfold pull, resolve, exists_. rewrite bind_ask. fold folder_path.
  unfold try_except at 1. rewrite bind_ask, Hexists. cbn [negb].
  unfold bind at 1.
  rewrite (ensure_dvc_repository_noop_aux folder_path stage_type w Hdvc).
  run_step. fold key file sync. rewrite Hdown, Hpull.
  destruct (exit_code x =? 0)%Z; reflexivity.
Qed.

Lemma ensure_git_repository_quiet :
  emits (fun ev => quiet ev = true) (ensure_git_repository self).
Proof. emits_tac; reflexivity. Qed.

Lemma configure_remote_quiet
    (project_path : Path) (appointed_bucket service_type : string) :
  emits (fun ev => quiet ev = true)
        (configure_remote self project_path appointed_bucket service_type).
Proof. emits_tac; reflexivity. Qed.

Lemma quiet_no_download (evs : list Event) :
  Forall (fun ev => quiet ev = true) evs -> downloads evs = [].
Proof.
  induction 1 as [| ev evs Hev _ IH]; [reflexivity |].
  unfold downloads in *. cbn [flat_map]. rewrite IH.
  destruct ev; try reflexivity. discriminate Hev.
Qed.

Lemma quiet_no_pull (evs : list Event) :
  Forall (fun ev => quiet ev = true) evs ->
  filter (is_run_of ["dvc"; "pull"]) evs = [].
Proof.
  intro H. apply filter_none. induction H as [| ev evs Hev _ IH];
    constructor; auto.
  destruct ev; try reflexivity. cbn [quiet] in Hev. cbn [is_run_of].
  destruct (starts_with ["dvc"; "pull"] cmd); [discriminate Hev | reflexivity].
Qed.

(** What configuring the remote returns has no influence on [pull]:
    on a fresh destination, once [dvc init] has exited zero, [pull]
    goes on to fetch the manifest and to run [dvc pull] whatever result
    [configure_remote] returned, an error result included. *)
Theorem pull_ignores_configuration_result :
  forall (stage_type dvc_filename : string) (folder_path0 : Path)
         (w w1 w2 w3 w4 w5 : W) (made x : Exit) (ev2 ev3 : list Event)
         (configured : Result),
    let folder_path := path_resolve folder_path0 w in
    let dvc_repo_path := path_resolve folder_path w in
    let file := PyPath.str (folder_path // dvc_filename) in
    let key := dvc_file_key self stage_type dvc_filename in
    let run := pull self stage_type dvc_filename folder_path0 w in
    path_exists folder_path w = true ->
    path_exists (folder_path // ".dvc") w = false ->
    path_exists (dvc_repo_path // ".dvc") w = false ->
    spawn ["dvc"; "init"; "--no-scm"] dvc_repo_path w = (inr made, w1) ->
    exit_code made = 0%Z ->
    ensure_git_repository self w1 = (inr tt, w2, ev2) ->
    configure_remote self dvc_repo_path (minio_bucket self) stage_type w2
    = (inr configured, w3, ev3) ->
    s3_download_file (minio_bucket self) key file w3 = (inr tt, w4) ->
    spawn ["dvc"; "pull"; file] folder_path w4 = (inr x, w5) ->
    outcome run
    = inr (out_result (if (exit_code x =? 0)%Z then "success" else "error")
             (Some (exit_stdout x)) (Some (exit_stderr x)))
    /\ world_after run = w5
    /\ downloads (events run) = [(minio_bucket self, key)]
    /\ filter (is_run_of ["dvc"; "pull"]) (events run)
       = [ERun ["dvc"; "pull"; file] folder_path].
Proof.
  intros stage_type dvc_filename folder_path0 w w1 w2 w3 w4 w5 made x ev2 ev3
         configured folder_path dvc_repo_path file key run Hexists Hnew Hnew'
         Hinit Hzero Hgit Hconf Hdown Hpull.
  pose proof (ensure_git_repository_quiet w1) as Hev2.
  pose proof (configure_remote_quiet dvc_repo_path (minio_bucket self)
                stage_type w2) as Hev3.
  rewrite Hgit in Hev2. rewrite Hconf in Hev3.
  unfold events in Hev2, Hev3. cbn [snd] in Hev2, Hev3.
  pose proof (quiet_no_download _ Hev2) as Hd2.
  pose proof (quiet_no_download _ Hev3) as Hd3.
  pose proof (quiet_no_pull _ Hev2) as Hp2.
  pose proof (quiet_no_pull _ Hev3) as Hp3.
  subst run.
  unfold pull, ensure_dvc_repository, initialize_dvc. run_step.
  fold folder_path. rewrite Hexists, Hnew. fold dvc_repo_path.
  rewrite Hnew', Hinit, Hzero. cbn [Z.eqb]. rewrite Hgit, Hconf.
  fold key file. rewrite Hdown, Hpull.
  unfold downloads in *.
  destruct (exit_code x =? 0)%Z;
    unfold outcome, world_after, events; cbn [fst snd];
    (split; [reflexivity |]); (split; [reflexivity |]);
    split;
    repeat first
      [ rewrite flat_map_app | rewrite filter_app
      | rewrite Hd2 | rewrite Hd3 | rewrite Hp2 | rewrite Hp3
      | progress cbn [flat_map filter app is_run_of starts_with] ];
    reflexivity.
Qed.

(** When [dvc add] exits non-zero, [add] returns an error result with
    the rendering of the [CalledProcessError]; the manifest is not
    looked for, nothing is copied and no git command is run. *)
Theorem add_tracking_failure :
  forall (folder_path0 : Path) (folder_name stage_type : string)
         (w w1 : W) (x : Exit),
    let folder_path := path_resolve folder_path0 w in
    let track := ["dvc"; "add"; PyPath.str folder_path] in
    let why := str_CalledProcessError (exit_code x) track in
    path_exists folder_path w = true ->
    spawn track (PyPath.parent folder_path) w = (inr x, w1) ->
    exit_code x <> 0%Z ->
    add self folder_path0 folder_name stage_type w
    = (inr (msg_result "error" why), w1,
       [ERun track (PyPath.parent folder_path);
        ELog ERROR ("Error adding folder to DVC: " +++ why)]).
Proof.
  intros folder_path0 folder_name stage_type w w1 x folder_path track why
         Hexists Hadd Hcode.
  unfold add. run_step. fold folder_path track. rewrite Hexists, Hadd.
  apply Z.eqb_neq in Hcode. rewrite Hcode. reflexivity.
Qed.

Lemma create_directory_no_git (path : Path) :
  emits (fun ev => is_run_of ["git"] ev = false)
        (create_directory_if_not_exists path).
Proof. emits_tac; reflexivity. Qed.

(** A failure of the copy into the archive is not turned into a result:
    any exception of [shutil.copy] other than a [CalledProcessError]
    leaves [add] as it was raised, and no git command is run. *)
Theorem add_copy_failure :
  forall (folder_path0 : Path) (folder_name stage_type : string)
         (w w1 w2 w3 : W) (x : Exit) (ev2 : list Event) (e : exn),
    let folder_path := path_resolve folder_path0 w in
    let dvc_file := PyPath.parent folder_path // (folder_name +++ ".dvc") in
    let storage :=
      path_resolve (git_repo_path self // stage_type
                    // (stage_type +++ "_" +++ folder_name)) w1 in
    let run := add self folder_path0 folder_name stage_type w in
    path_exists folder_path w = true ->
    spawn ["dvc"; "add"; PyPath.str folder_path] (PyPath.parent folder_path) w
    = (inr x, w1) ->
    exit_code x = 0%Z ->
    path_exists dvc_file w1 = true ->
    create_directory_if_not_exists storage w1 = (inr tt, w2, ev2) ->
    shutil_copy (PyPath.str dvc_file) (PyPath.str storage) w2 = (inl e, w3) ->
    is_CalledProcessError e = false ->
    outcome run = inl e
    /\ world_after run = w3
    /\ filter (is_run_of ["git"]) (events run) = [].
Proof.
  intros folder_path0 folder_name stage_type w w1 w2 w3 x ev2 e folder_path
         dvc_file storage run Hexists Hadd Hzero Hfound Hdir Hcopy Hkind.
  pose proof (create_directory_no_git storage w1) as Hev2.
  rewrite Hdir in Hev2. unfold events in Hev2. cbn [snd] in Hev2.
  subst run. unfold add. run_step. fold folder_path.
  rewrite Hexists, Hadd, Hzero. cbn [Z.eqb]. fold dvc_file.
  rewrite Hfound. fold storage. rewrite Hdir, Hcopy, Hkind.
  unfold outcome, world_after, events. cbn [fst snd].
  repeat split. apply filter_none.
  apply Forall_app. split; [repeat constructor |].
  constructor; [reflexivity |].
  apply Forall_app. split; [exact Hev2 | repeat constructor].
Qed.

(** [download_dvc_file_from_minio] asks for the key
    [{stage_type}/{dvc_filename}] and reports every failure of the
    download, whatever its kind, as a [FileNotFoundError]. *)
Theorem download_dvc_file_from_minio_outcomes :
  forall (dvc_filename stage_type : string) (target : Path) (w : W),
    let key := stage_type +++ "/" +++ dvc_filename in
    let fetch := EDownload (minio_bucket self) key (PyPath.str target) in
    let run := download_dvc_file_from_minio self dvc_filename target stage_type w in
    match s3_download_file (minio_bucket self) key (PyPath.str target) w with
    | (inr _, w1) =>
        run = (inr tt, w1,
               [fetch;
                ELog INFO ("Downloaded " +++ dvc_filename +++ " from MinIO to "
                           +++ PyPath.str target)])
    | (inl e, w1) =>
        let why := "Failed to download " +++ dvc_filename +++ " from MinIO: "
                   +++ str_exn e in
        run = (inl (FileNotFoundError why), w1, [fetch; ELog ERROR why])
    end.
Proof.
  intros dvc_filename stage_type target w key fetch run. subst run.
  unfold download_dvc_file_from_minio. run_step. fold key.
  destruct (s3_download_file (minio_bucket self) key (PyPath.str target) w)
    as [[e | []] w1]; reflexivity.
Qed.

(** Every child process the public methods start is [git] or [dvc], and
    none of them is [git push]: the archive's history is never pushed. *)
Theorem calls_are_git_or_dvc :
  forall (folder_path : Path) (folder_name stage_type dvc_filename : string),
    let fine := fun ev => allowed_call ev = true in
    emits fine (add self folder_path folder_name stage_type)
    /\ emits fine (push folder_path)
    /\ emits fine (add_and_push_data self folder_path folder_name stage_type)
    /\ emits fine (pull self stage_type dvc_filename folder_path)
    /\ emits fine (git_add_commit_and_push self folder_path folder_name).
Proof.
  intros folder_path folder_name stage_type dvc_filename fine. subst fine.
  repeat split; unfold add_and_push_data; emits_tac; reflexivity.
Qed.

(** [git] is only ever run in the archive root [git_repo_path], whatever
    folder a method is given. *)
Theorem git_runs_in_archive :
  forall (folder_path project_path : Path)
         (folder_name stage_type dvc_filename message_ : string),
    let at_home := fun ev =>
      match ev with
      | ERun (tool :: _) cwd => tool = "git" -> cwd = git_repo_path self
      | _ => True
      end in
    emits at_home (add self folder_path folder_name stage_type)
    /\ emits at_home (add_and_push_data self folder_path folder_name stage_type)
    /\ emits at_home (pull self stage_type dvc_filename folder_path)
    /\ emits at_home (git_add_commit_and_push self project_path message_).
Proof.
  intros folder_path project_path folder_name stage_type dvc_filename message_
         at_home.
  subst at_home.
  repeat split; unfold add_and_push_data; emits_tac;
    first [exact I | intro H; first [discriminate H | reflexivity]].
Qed.

(** [add] and the commit step are local: they never call the object
    store.  [push] and [upload_dvc_file_to_minio] in turn never touch
    the archive: they run no [git] command, create no directory and
    copy no file. *)
Theorem local_and_remote_steps_are_separate :
  forall (folder_path : Path) (folder_name stage_type : string),
    let offline := fun ev => is_store_call ev = false in
    let hands_off := fun ev =>
      match ev with
      | ERun cmd _ => starts_with ["git"] cmd = false
      | EMkdir _ | ECopy _ _ => False
      | _ => True
      end in
    emits offline (add self folder_path folder_name stage_type)
    /\ emits offline (git_add_commit_and_push self folder_path folder_name)
    /\ emits hands_off (push folder_path)
    /\ emits hands_off (upload_dvc_file_to_minio self folder_path stage_type).
Proof.
  intros folder_path folder_name stage_type offline hands_off.
  subst offline hands_off.
  repeat split; emits_tac; first [reflexivity | exact I].
Qed.

Lemma chars_of_manifest_name (folder_name : string) (c : ascii) :
  In c (list_ascii_of_string (folder_name +++ ".dvc")) ->
  In c (list_ascii_of_string folder_name)
  \/ In c (list_ascii_of_string ".dvc").
Proof.
  induction folder_name as [| a rest IH]; [right; assumption |].
  cbn [String.append list_ascii_of_string In].
  intros [-> | Hin]; [left; left; reflexivity |].
  destruct (IH Hin) as [H | H]; [left; right; exact H | right; exact H].
Qed.

(** What [add_and_push_data] stores for [folder_name] is what [pull]
    asks for under [{folder_name}.dvc]: when the folder name holds no
    slash, every upload of [add_and_push_data] goes to the key from
    which [pull] with that file name downloads. *)
Theorem publish_key_matches_retrieve :
  forall (folder_path : Path) (folder_name stage_type : string),
    (forall c, In c (list_ascii_of_string folder_name) -> c <> "/"%char) ->
    emits (fun ev =>
             match ev with
             | EUpload _ b k =>
                 b = minio_bucket self
                 /\ k = dvc_file_key self stage_type (folder_name +++ ".dvc")
             | _ => True
             end)
          (add_and_push_data self folder_path folder_name stage_type).
Proof.
  intros folder_path folder_name stage_type Hno.
  unfold add_and_push_data; emits_tac; try exact I.
  split; [reflexivity |]. apply manifest_key_of_filename.
  - intros c Hc. destruct (chars_of_manifest_name folder_name c Hc) as [H | H].
    + exact (Hno c H).
    + cbn in H. intuition (subst; discriminate).
  - destruct folder_name; discriminate.
  - destruct folder_name as [| c0 [| c1 rest]]; discriminate.
Qed.

End More.

Section Construction.

Context {W : Type} `{Ext : External W}.

Variables dag execution bucket url key_id secret : string.
Variable git_repo_path0 : Path.

(** Constructing a worker over an archive root that exists and is a
    git repository runs nothing: no directory is created, no command is
    started, the world is unchanged.  The worker holds the resolved
    archive path and the remote name [remote_{dag_id}_{execution_id}]. *)
Theorem init_existing_repository :
  forall (w : W),
    let repo := path_resolve git_repo_path0 w in
    path_exists repo w = true ->
    path_exists (repo // ".git") w = true ->
    init dag execution bucket url key_id secret git_repo_path0 w
    = (inr (mkWorker dag execution repo bucket url key_id secret
              ("remote_" +++ dag +++ "_" +++ execution)),
       w,
       [ELog INFO ("Directory " +++ PyPath.str repo +++ " already exists.");
        ELog INFO ("Directory " +++ PyPath.str repo
                   +++ " is already a Git repository.")]).
Proof.
  intros w repo Hdir Hgit.
  unfold init, create_directory_if_not_exists, ensure_git_repository.
  run_step. cbn [git_repo_path]. fold repo. rewrite Hdir, Hgit. reflexivity.
Qed.

(** When the archive root is missing and cannot be created, the
    constructor raises the exception of [mkdir] and starts no command. *)
Theorem init_mkdir_failure :
  forall (w w1 : W) (e : exn),
    let repo := path_resolve git_repo_path0 w in
    path_exists repo w = false ->
    path_mkdir repo w = (inl e, w1) ->
    init dag execution bucket url key_id secret git_repo_path0 w
    = (inl e, w1,
       [ELog INFO ("Directory " +++ PyPath.str repo
                   +++ " does not exist. Creating it.");
        EMkdir repo]).
Proof.
  intros w w1 e repo Hdir Hmkdir.
  unfold init, create_directory_if_not_exists. run_step.
  cbn [git_repo_path]. fold repo. rewrite Hdir, Hmkdir. reflexivity.
Qed.

(** When the archive root exists but is not a git repository and
    [git init] exits non-zero, the constructor raises the
    [CalledProcessError]: no worker is returned. *)
Theorem init_git_init_failure :
  forall (w w1 : W) (x : Exit),
    let repo := path_resolve git_repo_path0 w in
    path_exists repo w = true ->
    path_exists (repo // ".git") w = false ->
    spawn ["git"; "init"] repo w = (inr x, w1) ->
    exit_code x <> 0%Z ->
    init dag execution bucket url key_id secret git_repo_path0 w
    = (inl (CalledProcessError (exit_code x) ["git"; "init"] None None), w1,
       [ELog INFO ("Directory " +++ PyPath.str repo +++ " already exists.");
        ELog INFO ("Directory " +++ PyPath.str repo
                   +++ " is not a Git repository. Initializing a new Git repository.");
        ERun ["git"; "init"] repo]).
Proof.
  intros w w1 x repo Hdir Hgit Hinit Hcode.
  unfold init, create_directory_if_not_exists, ensure_git_repository.
  run_step. cbn [git_repo_path]. fold repo. rewrite Hdir, Hgit, Hinit.
  apply Z.eqb_neq in Hcode. rewrite Hcode. reflexivity.
Qed.

End Construction.

(** ** The status output of the commit step *)

Lemma strip_truthy (s : string) :
  PyStr.truthy (PyStr.strip s)
  = negb (forallb PyStr.isspace (list_ascii_of_string s)).
Proof.
  unfold PyStr.strip. induction s as [| c s IH]; [reflexivity |].
  cbn [PyStr.lstrip list_ascii_of_string forallb].
  destruct (PyStr.isspace c) eqn:Hc; [exact IH |].
  cbn [PyStr.rstrip andb negb]. rewrite Hc.
  destruct (PyStr.rstrip s); reflexivity.
Qed.

Section Commit.

Context {W : Type} `{Ext : External W}.
Variable self : DVCWorker.

(** Once staging and the status query have exited zero, the commit
    step runs [git commit] exactly when the status output holds a
    character that is not white space; an output of blanks and line
    ends counts as a clean archive. *)
Theorem commit_iff_status_not_blank :
  forall (project_path : Path) (message_ : string) (w w1 w2 : W)
         (staged queried : Exit),
    let repo := git_repo_path self in
    spawn ["git"; "add"; "."] repo w = (inr staged, w1) ->
    exit_code staged = 0%Z ->
    spawn ["git"; "status"; "--porcelain"] repo w1 = (inr queried, w2) ->
    exit_code queried = 0%Z ->
    existsb (is_run_of ["git"; "commit"])
      (events (git_add_commit_and_push self project_path message_ w))
    = negb (forallb PyStr.isspace (list_ascii_of_string (exit_stdout queried))).
Proof.
  intros project_path message_ w w1 w2 staged queried repo Hadd Hadd0
         Hstatus Hstatus0.
  rewrite <- strip_truthy.
  unfold git_add_commit_and_push. run_step. fold repo.
  rewrite Hadd, Hadd0. cbn [Z.eqb]. rewrite Hstatus, Hstatus0.
  cbn [Z.eqb cp_stdout fmt_opt].
  destruct (PyStr.truthy (PyStr.strip (exit_stdout queried))); cbn [negb];
    [| reflexivity].
  destruct_calls; destruct_handlers; reflexivity.
Qed.

End Commit.

(** * Further runs in the simulated world *)

(** [dvc init] exits 1 on a fresh destination. *)
Lemma initialize_dvc_init_failure_witness :
  outcome (initialize_dvc
             (Ext := Faulty.external Sim.no_faults
                       (Faulty.command_fails ["dvc"; "init"]))
             Sim.worker Sim.folder "preprocess" Sim.w0)
  = inl (CalledProcessError 1 ["dvc"; "init"; "--no-scm"] None None).
Proof.
  rewrite (initialize_dvc_init_failure
             (Ext := Faulty.external Sim.no_faults
                       (Faulty.command_fails ["dvc"; "init"]))
             Sim.worker Sim.folder "preprocess" Sim.w0 Sim.w0
             (mkExit 1 "" "fatal"));
    first [reflexivity | discriminate].
Defined.

Lemma pull_dvc_init_failure_witness :
  pull (Ext := Faulty.external Sim.no_faults
                 (Faulty.command_fails ["dvc"; "init"]))
    Sim.worker "preprocess" "stage1_result.dvc" Sim.folder Sim.w0
  = (inr (msg_result "error"
            "Command '['dvc', 'init', '--no-scm']' returned non-zero exit status 1."),
     Sim.w0,
     [ELog INFO "Directory /out/stage1_result is not a DVC repository. Initializing a new DVC repository with --no-scm.";
      ELog DEBUG "Initializing DVC repository at /out/stage1_result";
      ERun ["dvc"; "init"; "--no-scm"] Sim.folder;
      ELog ERROR "Error during pull operation: Command '['dvc', 'init', '--no-scm']' returned non-zero exit status 1."]).
Proof.
  rewrite (pull_dvc_init_failure
             (Ext := Faulty.external Sim.no_faults
                       (Faulty.command_fails ["dvc"; "init"]))
             Sim.worker "preprocess" "stage1_result.dvc" Sim.folder Sim.w0
             Sim.w0 (mkExit 1 "" "fatal"));
    first [reflexivity | discriminate].
Defined.

(** Retrieving a published manifest, with [dvc pull] exiting 0 and 1. *)
Lemma pull_fetch_then_sync_witness :
  outcome (pull (Ext := Sim.external Sim.no_faults) Sim.worker "preprocess"
             "stage1_result.dvc" Sim.folder Faulty.w_published)
  = inr (out_result "success" (Some "") (Some ""))
  /\ outcome (pull (Ext := Faulty.external Sim.no_faults
                             (Faulty.command_fails ["dvc"; "pull"]))
                Sim.worker "preprocess" "stage1_result.dvc" Sim.folder
                Faulty.w_published)
     = inr (out_result "error" (Some "") (Some "fatal")).
Proof.
  pose (fetched := Sim.touch (Sim.folder // "stage1_result.dvc")
                     Faulty.w_published).
  split.
  - exact (f_equal outcome
             (pull_fetch_then_sync (Ext := Sim.external Sim.no_faults)
                Sim.worker "preprocess" "stage1_result.dvc" Sim.folder
                Faulty.w_published fetched fetched (mkExit 0 "" "")
                eq_refl eq_refl eq_refl eq_refl)).
  - exact (f_equal outcome
             (pull_fetch_then_sync
                (Ext := Faulty.external Sim.no_faults
                          (Faulty.command_fails ["dvc"; "pull"]))
                Sim.worker "preprocess" "stage1_result.dvc" Sim.folder
                Faulty.w_published fetched fetched (mkExit 1 "" "fatal")
                eq_refl eq_refl eq_refl eq_refl)).
Defined.

(** Every [dvc remote] command exits 1: the configuration fails and
    [pull] still fetches and synchronises. *)
Lemma pull_ignores_configuration_result_witness :
  outcome (configure_remote
             (Ext := Faulty.external Sim.no_faults
                       (Faulty.command_fails ["dvc"; "remote"]))
             Sim.worker Sim.folder "datasets" "preprocess"
             (Sim.touch (Sim.folder // ".dvc") Faulty.w_remote_only))
  = inr (msg_result "error"
           "Command '['dvc', 'remote', 'add', '-d', 'remote_P1_R1', 's3://datasets/P1_R1/preprocess/dataset', '--force']' returned non-zero exit status 1.")
  /\ outcome (pull (Ext := Faulty.external Sim.no_faults
                             (Faulty.command_fails ["dvc"; "remote"]))
                Sim.worker "preprocess" "stage1_result.dvc" Sim.folder
                Faulty.w_remote_only)
     = inr (out_result "success" (Some "") (Some "")).
Proof.
  split; [reflexivity |].
  edestruct (pull_ignores_configuration_result
               (Ext := Faulty.external Sim.no_faults
                         (Faulty.command_fails ["dvc"; "remote"]))
               Sim.worker "preprocess" "stage1_result.dvc" Sim.folder
               Faulty.w_remote_only) as (Hrun & _);
    [reflexivity .. | exact Hrun].
Defined.

Lemma add_tracking_failure_witness :
  add (Ext := Faulty.external Sim.no_faults
                (Faulty.command_fails ["dvc"; "add"]))
    Sim.worker Sim.folder "stage1_result" "preprocess" Sim.w0
  = (inr (msg_result "error"
            "Command '['dvc', 'add', '/out/stage1_result']' returned non-zero exit status 1."),
     Sim.w0,
     [ERun ["dvc"; "add"; "/out/stage1_result"] (PyPath.of_str "/out");
      ELog ERROR "Error adding folder to DVC: Command '['dvc', 'add', '/out/stage1_result']' returned non-zero exit status 1."]).
Proof.
  rewrite (add_tracking_failure
             (Ext := Faulty.external Sim.no_faults
                       (Faulty.command_fails ["dvc"; "add"]))
             Sim.worker Sim.folder "stage1_result" "preprocess" Sim.w0 Sim.w0
             (mkExit 1 "" "fatal"));
    first [reflexivity | discriminate].
Defined.

(** The copy into the archive is refused. *)
Lemma add_copy_failure_witness :
  outcome (add (Ext := Faulty.external Sim.no_faults Faulty.copy_fails)
             Sim.worker Sim.folder "stage1_result" "preprocess" Sim.w0)
  = inl (OtherException "Permission denied").
Proof.
  edestruct (add_copy_failure
               (Ext := Faulty.external Sim.no_faults Faulty.copy_fails)
               Sim.worker Sim.folder "stage1_result" "preprocess" Sim.w0)
    as (Hrun & _);
    [reflexivity .. | exact Hrun].
Defined.

(** All steps of [add] go through. *)
Lemma add_discards_commit_result_witness :
  outcome (add (Ext := Sim.external Sim.no_faults) Sim.worker Sim.folder
             "stage1_result" "preprocess" Sim.w0)
  = inr (msg_result "success"
           "Folder stage1_result added to DVC tracking and DVC file committed to Git.")
  /\ Sim.has_path
       (PyPath.of_str "/srv/archive/preprocess/preprocess_stage1_result/stage1_result.dvc")
       (world_after (add (Ext := Sim.external Sim.no_faults) Sim.worker
                       Sim.folder "stage1_result" "preprocess" Sim.w0))
     = true.
Proof.
  assert (H : exists w' ev,
             add (Ext := Sim.external Sim.no_faults) Sim.worker Sim.folder
               "stage1_result" "preprocess" Sim.w0
             = (inr (msg_result "success"
                       "Folder stage1_result added to DVC tracking and DVC file committed to Git."),
                w', ev)).
  { do 2 eexists.
    eapply (add_discards_commit_result (Ext := Sim.external Sim.no_faults)
              Sim.worker Sim.folder "stage1_result" "preprocess" Sim.w0);
      reflexivity. }
  destruct H as (w' & ev & H). split; [rewrite H |]; reflexivity.
Defined.

Lemma init_existing_repository_witness :
  init (Ext := Sim.external Sim.no_faults) "P1" "R1" "datasets"
    "http://minio:9000" "key" "secret" (PyPath.of_str "/srv/archive") Sim.w0
  = (inr Sim.worker, Sim.w0,
     [ELog INFO "Directory /srv/archive already exists.";
      ELog INFO "Directory /srv/archive is already a Git repository."]).
Proof.
  exact (init_existing_repository (Ext := Sim.external Sim.no_faults)
           "P1" "R1" "datasets" "http://minio:9000" "key" "secret"
           (PyPath.of_str "/srv/archive") Sim.w0 eq_refl eq_refl).
Defined.

Lemma init_mkdir_failure_witness :
  init (Ext := Faulty.external Sim.no_faults Faulty.mkdir_fails) "P1" "R1"
    "datasets" "http://minio:9000" "key" "secret"
    (PyPath.of_str "/srv/archive") Sim.empty
  = (inl (OtherException "Permission denied"), Sim.empty,
     [ELog INFO "Directory /srv/archive does not exist. Creating it.";
      EMkdir (PyPath.of_str "/srv/archive")]).
Proof.
  exact (init_mkdir_failure
           (Ext := Faulty.external Sim.no_faults Faulty.mkdir_fails)
           "P1" "R1" "datasets" "http://minio:9000" "key" "secret"
           (PyPath.of_str "/srv/archive") Sim.empty Sim.empty
           (OtherException "Permission denied") eq_refl eq_refl).
Defined.

Lemma init_git_init_failure_witness :
  outcome (init (Ext := Faulty.external Sim.no_faults
                          (Faulty.command_fails ["git"; "init"]))
             "P1" "R1" "datasets" "http://minio:9000" "key" "secret"
             Sim.folder Sim.w0)
  = inl (CalledProcessError 1 ["git"; "init"] None None).
Proof.
  rewrite (init_git_init_failure
             (Ext := Faulty.external Sim.no_faults
                       (Faulty.command_fails ["git"; "init"]))
             "P1" "R1" "datasets" "http://minio:9000" "key" "secret"
             Sim.folder Sim.w0 Sim.w0 (mkExit 1 "" "fatal"));
    first [reflexivity | discriminate].
Defined.

(** A changed archive and a clean one. *)
Lemma commit_iff_status_not_blank_witness :
  existsb (is_run_of ["git"; "commit"])
    (events (git_add_commit_and_push (Ext := Sim.external Sim.no_faults)
               Sim.worker Scenario.repo "Add result" Scenario.w_dirty))
  = true
  /\ existsb (is_run_of ["git"; "commit"])
       (events (git_add_commit_and_push (Ext := Sim.external Sim.no_faults)
                  Sim.worker Scenario.repo "Add result" Sim.w0))
     = false.
Proof.
  split.
  - exact (commit_iff_status_not_blank (Ext := Sim.external Sim.no_faults)
              Sim.worker Scenario.repo "Add result" Scenario.w_dirty
              Scenario.w_dirty Scenario.w_dirty (mkExit 0 "" "")
              (mkExit 0 ("A  data.dvc" +++ nl) "")
              eq_refl eq_refl eq_refl eq_refl).
  - exact (commit_iff_status_not_blank (Ext := Sim.external Sim.no_faults)
              Sim.worker Scenario.repo "Add result" Sim.w0 Sim.w0 Sim.w0
              (mkExit 0 "" "") (mkExit 0 "" "")
              eq_refl eq_refl eq_refl eq_refl).
Defined.

(** Publishing [stage1_result]: one upload, to the key [pull] uses. *)
Lemma publish_key_matches_retrieve_witness :
  let run := add_and_push_data (Ext := Sim.external Sim.no_faults)
               Sim.worker Sim.folder "stage1_result" "preprocess" Sim.w0 in
  Forall (fun ev =>
            match ev with
            | EUpload _ b k =>
                b = "datasets"
                /\ k = dvc_file_key Sim.worker "preprocess" "stage1_result.dvc"
            | _ => True
            end) (events run)
  /\ uploads (events run)
     = [("datasets", "P1_R1/preprocess/dvc_files/stage1_result.dvc")].
Proof.
  split; [| reflexivity].
  apply (publish_key_matches_retrieve (Ext := Sim.external Sim.no_faults)
           Sim.worker Sim.folder "stage1_result" "preprocess").
  cbn. intuition (subst; discriminate).
Defined.

(** Setting the access key exits 1: three commands are started, the
    last two are not. *)
Lemma configure_remote_stops_at_first_failure_witness :
  let run := configure_remote
               (Ext := Faulty.external Sim.no_faults
                         (Faulty.command_fails Faulty.set_access_key))
               Sim.worker Sim.folder "datasets" "preprocess" Faulty.w_bucket in
  outcome run
  = inr (msg_result "error"
           "Command '['dvc', 'remote', 'modify', 'remote_P1_R1', 'access_key_id', 'key']' returned non-zero exit status 1.")
  /\ world_after run = Faulty.w_bucket
  /\ filter is_run (events run)
     = [ERun ["dvc"; "remote"; "add"; "-d"; "remote_P1_R1";
              "s3://datasets/P1_R1/preprocess/dataset"; "--force"] Sim.folder;
        ERun ["dvc"; "remote"; "modify"; "remote_P1_R1"; "endpointurl";
              "http://minio:9000"] Sim.folder;
        ERun ["dvc"; "remote"; "modify"; "remote_P1_R1"; "access_key_id";
              "key"] Sim.folder].
Proof.
  exact (configure_remote_stops_at_first_failure
           (Ext := Faulty.external Sim.no_faults
                     (Faulty.command_fails Faulty.set_access_key))
           Sim.worker Sim.folder "datasets" "preprocess"
           Faulty.w_bucket Faulty.w_bucket Faulty.w_bucket Faulty.w_bucket
           Faulty.w_bucket [EHeadBucket "datasets"] true 2 (mkExit 1 "" "fatal")
           eq_refl eq_refl ltac:(repeat constructor) eq_refl eq_refl
           ltac:(discriminate)).
Defined.

(** The bucket is missing and gets created; the five commands exit 0. *)
Lemma configure_remote_success_witness :
  let run := configure_remote (Ext := Sim.external Sim.no_faults)
               Sim.worker Sim.folder "datasets" "preprocess" Sim.w0 in
  outcome run
  = inr (msg_result "success"
           "DVC initialized and MinIO remote configured successfully.")
  /\ Sim.has_bucket "datasets" (world_after run) = true
  /\ filter is_run (events run)
     = map (fun cmd => ERun cmd Sim.folder)
         (remote_commands Sim.worker "datasets" "preprocess").
Proof.
  destruct (configure_remote_success (Ext := Sim.external Sim.no_faults)
              Sim.worker Sim.folder "datasets" "preprocess"
              Sim.w0 Sim.w0 Faulty.w_bucket Faulty.w_bucket
              [EHeadBucket "datasets"] false eq_refl eq_refl eq_refl)
    as (Hout & Hworld & Hruns).
  split; [exact Hout |].
  split; [rewrite Hworld; reflexivity | exact Hruns].
Defined.
